(** * Salesforce block and analytics tools: a shallow embedding

    The development follows the TypeScript sources

    - [apps/sim/tools/salesforce/reports.ts] and
      [apps/sim/tools/salesforce/dashboards.ts]: the helper [getInstanceUrl]
      and the tool descriptors (URL builder, response transformer);
    - the block descriptor [SalesforceBlock] with its [tools.config.tool]
      switch and its [tools.config.params] clean-up.

    JavaScript values, exceptions, property access and the platform
    functions the helper calls ([String.prototype.split], [atob],
    [decodeURIComponent], [JSON.parse]) are written out first; the
    repository's own functions come after them, in the order of the
    sources. *)

From Stdlib Require Import ZArith NArith List String Ascii Bool Lia SpecFloat.
From Stdlib Require Import ZifyBool.
Import ListNotations.
Local Open Scope list_scope.
Local Open Scope string_scope.

(** ** JavaScript values

    A JavaScript string is a sequence of UTF-16 code units.  It is kept here
    as a [string] of bytes holding its (generalised) UTF-8 encoding: a pair of
    surrogates is the four-byte encoding of its code point, a lone surrogate
    the three-byte encoding of its code unit.  The encoding is one to one, no
    byte of a multi-byte sequence is below 128, and so equality of strings
    and the search for the ASCII character [/] agree with JavaScript's.

    A number is an IEEE 754 binary64 value, [spec_float] at precision 53. *)

#[local] Unset Elimination Schemes.
Inductive value : Type :=
| VUndefined
| VNull
| VBool (b : bool)
| VNum (x : spec_float)
| VStr (s : string)
| VArr (elems : list value)
| VObj (props : list (string * value))
| VFun (name : string).
#[local] Set Elimination Schemes.

(** The exceptions that the modelled code can raise.  [JsError v] is
    [new Error(v)]: the argument given to the constructor is recorded. *)
Inductive exn : Type :=
| JsError (message : value)
| TypeError (what : string)
| SyntaxError (what : string)
| URIError
| InvalidCharacterError.

Inductive outcome (A : Type) : Type :=
| Return (a : A)
| Throw (e : exn).
Arguments Return {A} a.
Arguments Throw {A} e.

Definition obind {A B} (m : outcome A) (k : A -> outcome B) : outcome B :=
  match m with
  | Return a => k a
  | Throw e => Throw e
  end.

Declare Scope outcome_scope.
Delimit Scope outcome_scope with outcome.
Notation "x <- m ;; k" := (obind m (fun x => k))
  (at level 61, m at next level, right associativity) : outcome_scope.


(** [ToBoolean]. *)
Definition truthy (v : value) : bool :=
  match v with
  | VUndefined | VNull => false
  | VBool b => b
  | VNum x =>
      match x with
      | S754_zero _ | S754_nan => false
      | _ => true
      end
  | VStr s => negb (s =? "")
  | VArr _ | VObj _ | VFun _ => true
  end.

(** [a || b]. *)
Definition js_or (a b : value) : value := if truthy a then a else b.

(** ** Objects: own properties in JavaScript's order

    The own keys of an ordinary object are listed with the array indices
    first, in ascending numeric order, and then the other string keys in the
    order of their creation.  An object is the association list of its own
    properties in that order. *)

Definition is_digit (c : ascii) : bool :=
  let n := N_of_ascii c in (48 <=? n)%N && (n <=? 57)%N.

Fixpoint decimal_value (acc : N) (s : string) : option N :=
  match s with
  | EmptyString => Some acc
  | String c s' =>
      if is_digit c then decimal_value (acc * 10 + (N_of_ascii c - 48))%N s'
      else None
  end.

(** A key is an array index when it is the canonical decimal numeral of an
    integer below [2^32 - 1]. *)
Definition array_index (k : string) : option N :=
  match k with
  | EmptyString => None
  | String c rest =>
      if (c =? "0")%char && negb (rest =? "") then None
      else match decimal_value 0 k with
           | Some n => if (n <? 4294967295)%N then Some n else None
           | None => None
           end
  end.

Definition obj := list (string * value).

Fixpoint lookup (k : string) (o : obj) : option value :=
  match o with
  | [] => None
  | (k', v) :: o' => if k' =? k then Some v else lookup k o'
  end.

Definition has_key (k : string) (o : obj) : bool :=
  match lookup k o with Some _ => true | None => false end.

Fixpoint update (k : string) (v : value) (o : obj) : obj :=
  match o with
  | [] => []
  | (k', v') :: o' =>
      if k' =? k then (k', v) :: o' else (k', v') :: update k v o'
  end.

(** A new array index [i] goes after the indices below it. *)
Fixpoint insert_index (i : N) (k : string) (v : value) (o : obj) : obj :=
  match o with
  | [] => [(k, v)]
  | (k', v') :: o' =>
      match array_index k' with
      | Some j =>
          if (j <? i)%N then (k', v') :: insert_index i k v o'
          else (k, v) :: o
      | None => (k, v) :: o
      end
  end.

(** [CreateDataProperty]: an existing key keeps its place. *)
Definition obj_set (o : obj) (k : string) (v : value) : obj :=
  if has_key k o then update k v o
  else match array_index k with
       | Some i => insert_index i k v o
       | None => (o ++ [(k, v)])%list
       end.

(** [o[k] = v] on an object made by an object literal.  The key
    [__proto__] is the accessor of [Object.prototype]: assigning to it
    creates no own property. *)
Definition obj_assign (o : obj) (k : string) (v : value) : obj :=
  if k =? "__proto__" then o else obj_set o k v.

(** The first UTF-16 code unit of a string, as a string. *)
Definition first_code_unit (s : string) : option string :=
  match s with
  | EmptyString => None
  | String b0 r =>
      let n0 := N_of_ascii b0 in
      if (n0 <? 128)%N then Some (String b0 "")
      else if (n0 <? 224)%N then Some (substring 0 2 s)
      else if (n0 <? 240)%N then Some (substring 0 3 s)
      else
        match r with
        | String b1 (String b2 _) =>
            (* code point, minus 0x10000, shifted right by 10: the high
               surrogate 0xD800 + that; its three bytes follow *)
            let cp := ((n0 mod 8) * 262144 + (N_of_ascii b1 mod 64) * 4096
                       + (N_of_ascii b2 mod 64) * 64)%N in
            let hi := (55296 + (cp - 65536) / 1024)%N in
            Some (String (ascii_of_N (224 + hi / 4096))
                 (String (ascii_of_N (128 + (hi / 64) mod 64))
                 (String (ascii_of_N (128 + hi mod 64)) "")))
        | _ => None
        end
  end.

(** [v[k]] and [v.k].  Of the built-in prototypes only what the program can
    reach is modelled: the keys it reads are [0], [message], [profile],
    [sub], [id], [status], [requestDate], [credential] and [operation], and
    the only one of them that a built-in prototype defines is
    [String.prototype.sub]. *)
Definition getProp (v : value) (k : string) : outcome value :=
  match v with
  | VUndefined => Throw (TypeError "Cannot read properties of undefined")
  | VNull => Throw (TypeError "Cannot read properties of null")
  | VObj o =>
      Return (match lookup k o with Some x => x | None => VUndefined end)
  | VArr l =>
      Return (match array_index k with
              | Some i => nth (N.to_nat i) l VUndefined
              | None => VUndefined
              end)
  | VStr s =>
      if k =? "0" then
        Return (match first_code_unit s with
                | Some c => VStr c
                | None => VUndefined
                end)
      else if k =? "sub" then Return (VFun "String.prototype.sub")
      else Return VUndefined
  | VBool _ | VNum _ | VFun _ => Return VUndefined
  end.

(** [v?.k]. *)
Definition getPropOpt (v : value) (k : string) : outcome value :=
  match v with
  | VUndefined | VNull => Return VUndefined
  | _ => getProp v k
  end.

(** ** Platform functions used by [getInstanceUrl] *)

Definition chars := list_ascii_of_string.
Definition str := string_of_list_ascii.

(** [s.split(sep)] for a separator of one character. *)
Fixpoint split (sep : ascii) (s : string) : list string :=
  match s with
  | EmptyString => [""]
  | String c s' =>
      let r := split sep s' in
      if (c =? sep)%char then "" :: r
      else match r with
           | h :: t => String c h :: t
           | [] => [String c ""]
           end
  end.

(** [s.replace(/a/g, b)] for single characters [a] and [b]. *)
Fixpoint replace_all (a b : ascii) (s : string) : string :=
  match s with
  | EmptyString => EmptyString
  | String c s' =>
      String (if (c =? a)%char then b else c) (replace_all a b s')
  end.

(** *** [atob]: forgiving base64 decoding

    The result is a binary string; it is returned as the list of its
    character codes, each below 256. *)

Definition is_ascii_whitespace (c : ascii) : bool :=
  let n := N_of_ascii c in
  (n =? 9)%N || (n =? 10)%N || (n =? 12)%N || (n =? 13)%N || (n =? 32)%N.

Definition base64_digit (c : ascii) : option N :=
  let n := N_of_ascii c in
  if (65 <=? n)%N && (n <=? 90)%N then Some (n - 65)%N
  else if (97 <=? n)%N && (n <=? 122)%N then Some (n - 71)%N
  else if (48 <=? n)%N && (n <=? 57)%N then Some (n + 4)%N
  else if (n =? 43)%N then Some 62%N
  else if (n =? 47)%N then Some 63%N
  else None.

Fixpoint map_option {A B} (f : A -> option B) (l : list A) : option (list B) :=
  match l with
  | [] => Some []
  | x :: l' =>
      match f x, map_option f l' with
      | Some y, Some ys => Some (y :: ys)
      | _, _ => None
      end
  end.

Definition strip_padding (data : list ascii) : list ascii :=
  match rev data with
  | c1 :: c2 :: r =>
      if (c1 =? "=")%char then
        if (c2 =? "=")%char then rev r else rev (c2 :: r)
      else data
  | _ => data
  end.

Fixpoint decode_sextets (l : list N) : list N :=
  match l with
  | a :: b :: c :: d :: rest =>
      let n := (a * 262144 + b * 4096 + c * 64 + d)%N in
      (n / 65536)%N :: ((n / 256) mod 256)%N :: (n mod 256)%N
        :: decode_sextets rest
  | [a; b; c] =>
      let n := (a * 4096 + b * 64 + c)%N in
      [(n / 1024)%N; ((n / 4) mod 256)%N]
  | [a; b] => [((a * 64 + b) / 16)%N]
  | _ => []
  end.

Definition atob (s : string) : outcome (list N) :=
  let data := filter (fun c => negb (is_ascii_whitespace c)) (chars s) in
  let data :=
    if (List.length data mod 4 =? 0)%nat then strip_padding data else data in
  if (List.length data mod 4 =? 1)%nat then Throw InvalidCharacterError
  else match map_option base64_digit data with
       | Some ds => Return (decode_sextets ds)
       | None => Throw InvalidCharacterError
       end.

(** *** The percent-escape of each character code

    [`%${(`00${c.charCodeAt(0).toString(16)}`).slice(-2)}`] *)

Definition hex_digit (n : N) : ascii :=
  if (n <? 10)%N then ascii_of_N (48 + n) else ascii_of_N (87 + n).

(** Leading zeros go, the last digit stays. *)
Fixpoint drop_zeros (l : list ascii) : list ascii :=
  match l with
  | c :: (_ :: _) as rest => if (c =? "0")%char then drop_zeros rest else l
  | _ => l
  end.

(** [n.toString(16)] for a character code [n], which is below [65536]. *)
Definition toString16 (n : N) : string :=
  str (drop_zeros (map (fun k => hex_digit ((n / 16 ^ k) mod 16))
                       [3; 2; 1; 0]%N)).

(** [s.slice(-2)]. *)
Definition slice_last2 (s : string) : string :=
  substring (length s - 2) 2 s.

Definition percentEscape (c : N) : string :=
  "%" ++ slice_last2 ("00" ++ toString16 c).

(** [l.join('')]. *)
Definition join (l : list string) : string :=
  fold_right append "" l.

(** *** [decodeURIComponent] *)

Definition hex_value (c : ascii) : option N :=
  let n := N_of_ascii c in
  if (48 <=? n)%N && (n <=? 57)%N then Some (n - 48)%N
  else if (65 <=? n)%N && (n <=? 70)%N then Some (n - 55)%N
  else if (97 <=? n)%N && (n <=? 102)%N then Some (n - 87)%N
  else None.

Definition in_range (lo hi b : N) : bool := (lo <=? b)%N && (b <=? hi)%N.

(** The well-formed UTF-8 byte sequences of one code point (Unicode,
    table 3-7): no overlong form, no surrogate, nothing above U+10FFFF. *)
Definition valid_utf8_seq (bs : list N) : bool :=
  match bs with
  | [b0] => (b0 <? 128)%N
  | [b0; b1] => in_range 194 223 b0 && in_range 128 191 b1
  | [b0; b1; b2] =>
      in_range 128 191 b2 &&
      ((b0 =? 224)%N && in_range 160 191 b1
       || in_range 225 236 b0 && in_range 128 191 b1
       || (b0 =? 237)%N && in_range 128 159 b1
       || in_range 238 239 b0 && in_range 128 191 b1)
  | [b0; b1; b2; b3] =>
      in_range 128 191 b2 && in_range 128 191 b3 &&
      ((b0 =? 240)%N && in_range 144 191 b1
       || in_range 241 243 b0 && in_range 128 191 b1
       || (b0 =? 244)%N && in_range 128 143 b1)
  | _ => false
  end.

(** The number of bytes that a leading byte announces. *)
Definition utf8_width (b : N) : option nat :=
  if (b <? 128)%N then Some 1%nat
  else if (b <? 192)%N then None
  else if (b <? 224)%N then Some 2%nat
  else if (b <? 240)%N then Some 3%nat
  else if (b <? 248)%N then Some 4%nat
  else None.

(** [pending] holds, in reverse, the bytes of the escape sequence being read
    and [need] the number of continuation bytes still expected. *)
Fixpoint decodeURI_from (pending : list N) (need : nat) (l : list ascii)
  : option (list ascii) :=
  match l with
  | [] => match need with O => Some [] | S _ => None end
  | c :: l1 =>
      if (c =? "%")%char then
        match l1 with
        | h1 :: h2 :: rest =>
            match hex_value h1, hex_value h2 with
            | Some d1, Some d2 =>
                let b := (d1 * 16 + d2)%N in
                match need with
                | O =>
                    match utf8_width b with
                    | Some 1%nat =>
                        option_map (cons (ascii_of_N b))
                                   (decodeURI_from [] 0 rest)
                    | Some (S n) => decodeURI_from [b] n rest
                    | _ => None
                    end
                | S n =>
                    if in_range 128 191 b then
                      match n with
                      | O =>
                          let bs := rev (b :: pending) in
                          if valid_utf8_seq bs then
                            option_map (app (map ascii_of_N bs))
                                       (decodeURI_from [] 0 rest)
                          else None
                      | S _ => decodeURI_from (b :: pending) n rest
                      end
                    else None
                end
            | _, _ => None
            end
        | _ => None
        end
      else
        match need with
        | O => option_map (cons c) (decodeURI_from [] 0 l1)
        | S _ => None
        end
  end.

Definition decodeURIComponent (s : string) : outcome string :=
  match decodeURI_from [] 0 (chars s) with
  | Some l => Return (str l)
  | None => Throw URIError
  end.

(** *** [JSON.parse]

    The text is cut into tokens by one pass over its characters, and the
    tokens are assembled with an explicit stack of open containers; both
    passes are structural recursions, so that the function is total without
    a bound on depth. *)

(** A number literal [-? int frac? exp?] denotes [m * 10^e] exactly; the
    number value is the binary64 nearest to it, ties to even. *)

Fixpoint span_digits (l : list ascii) : list ascii * list ascii :=
  match l with
  | c :: l' =>
      if is_digit c then let '(d, r) := span_digits l' in (c :: d, r)
      else ([], l)
  | [] => ([], [])
  end.

Definition digits_value (d : list ascii) : Z :=
  fold_left (fun acc c => (acc * 10 + Z.of_N (N_of_ascii c - 48))%Z) d 0%Z.

Definition round_decimal (m e : Z) : spec_float :=
  match m with
  | Zpos _ =>
      if (0 <=? e)%Z then
        binary_normalize 53 1024 (m * 10 ^ e)%Z 0 false
      else
        let q := (10 ^ (- e))%Z in
        let k := Z.max 0 (64 + Z.log2 q - Z.log2 m) in
        let n := (m * 2 ^ k)%Z in
        let sticky := if (n mod q =? 0)%Z then 0%Z else 1%Z in
        binary_normalize 53 1024 (2 * (n / q) + sticky)%Z (- k - 1)%Z false
  | _ => S754_zero false
  end.

Definition negate (neg : bool) (x : spec_float) : spec_float :=
  if neg then SFopp x else x.

Definition parse_number (l : list ascii) : option spec_float :=
  let '(neg, l) :=
    match l with
    | c :: l' => if (c =? "-")%char then (true, l') else (false, l)
    | [] => (false, l)
    end in
  let '(int, l) := span_digits l in
  let int_ok :=
    match int with
    | [] => false
    | [_] => true
    | c :: _ => negb (c =? "0")%char
    end in
  let '(frac, frac_ok, l) :=
    match l with
    | c :: l' =>
        if (c =? ".")%char then
          let '(d, r) := span_digits l' in
          (d, negb (Nat.eqb (List.length d) 0), r)
        else ([], true, l)
    | [] => ([], true, l)
    end in
  let '(ex, ex_ok, l) :=
    match l with
    | c :: l' =>
        if (c =? "e")%char || (c =? "E")%char then
          let '(eneg, l'') :=
            match l' with
            | s :: r =>
                if (s =? "-")%char then (true, r)
                else if (s =? "+")%char then (false, r)
                else (false, l')
            | [] => (false, l')
            end in
          let '(d, r) := span_digits l'' in
          ((if eneg then - digits_value d else digits_value d)%Z,
           negb (Nat.eqb (List.length d) 0), r)
        else (0%Z, true, l)
    | [] => (0%Z, true, l)
    end in
  match l with
  | [] =>
      if int_ok && frac_ok && ex_ok then
        Some (negate neg
                (round_decimal (digits_value (int ++ frac)%list)
                               (ex - Z.of_nat (List.length frac))))
      else None
  | _ => None
  end.

(** The UTF-8 bytes of a code point, and of a lone surrogate code unit. *)
Definition utf8_encode (cp : N) : list ascii :=
  if (cp <? 128)%N then [ascii_of_N cp]
  else if (cp <? 2048)%N then
    [ascii_of_N (192 + cp / 64); ascii_of_N (128 + cp mod 64)]
  else if (cp <? 65536)%N then
    [ascii_of_N (224 + cp / 4096); ascii_of_N (128 + (cp / 64) mod 64);
     ascii_of_N (128 + cp mod 64)]
  else
    [ascii_of_N (240 + cp / 262144); ascii_of_N (128 + (cp / 4096) mod 64);
     ascii_of_N (128 + (cp / 64) mod 64); ascii_of_N (128 + cp mod 64)].

Definition hex4 (a b c d : ascii) : option N :=
  match hex_value a, hex_value b, hex_value c, hex_value d with
  | Some x, Some y, Some z, Some w => Some (x * 4096 + y * 256 + z * 16 + w)%N
  | _, _, _, _ => None
  end.

(** A [\u] escape of a low surrogate at the head of [l], with what follows. *)
Definition low_surrogate_escape (l : list ascii) : option (N * list ascii) :=
  match l with
  | b :: u :: a1 :: a2 :: a3 :: a4 :: rest =>
      if (b =? "\")%char && (u =? "u")%char then
        match hex4 a1 a2 a3 a4 with
        | Some lo => if in_range 56320 57343 lo then Some (lo, rest) else None
        | None => None
        end
      else None
  | _ => None
  end.

Definition simple_escape (c : ascii) : option ascii :=
  if (c =? "034")%char || (c =? "\")%char || (c =? "/")%char then Some c
  else if (c =? "b")%char then Some (ascii_of_N 8)
  else if (c =? "f")%char then Some (ascii_of_N 12)
  else if (c =? "n")%char then Some (ascii_of_N 10)
  else if (c =? "r")%char then Some (ascii_of_N 13)
  else if (c =? "t")%char then Some (ascii_of_N 9)
  else None.

(** The characters between the quotes of a string literal, escapes
    resolved.  An escaped high surrogate followed by an escaped low surrogate
    is one code point. *)
Fixpoint unescape (l : list ascii) : option (list ascii) :=
  match l with
  | [] => Some []
  | c :: l1 =>
      if (c =? "\")%char then
        match l1 with
        | e :: l2 =>
            if (e =? "u")%char then
              match l2 with
              | a1 :: a2 :: a3 :: a4 :: l3 =>
                  match hex4 a1 a2 a3 a4 with
                  | Some cu =>
                      if in_range 55296 56319 cu then
                        match l3 with
                        | b :: u :: b1 :: b2 :: b3 :: b4 :: l4 =>
                            match low_surrogate_escape l3 with
                            | Some (lo, _) =>
                                option_map
                                  (app (utf8_encode
                                          (65536 + (cu - 55296) * 1024
                                           + (lo - 56320))))
                                  (unescape l4)
                            | None =>
                                option_map (app (utf8_encode cu)) (unescape l3)
                            end
                        | _ => option_map (app (utf8_encode cu)) (unescape l3)
                        end
                      else option_map (app (utf8_encode cu)) (unescape l3)
                  | None => None
                  end
              | _ => None
              end
            else
              match simple_escape e with
              | Some x => option_map (cons x) (unescape l2)
              | None => None
              end
        | [] => None
        end
      else if (N_of_ascii c <? 32)%N then None
      else option_map (cons c) (unescape l1)
  end.

Inductive token : Type :=
| TLBrace | TRBrace | TLBracket | TRBracket | TComma | TColon
| TString (s : string)
| TScalar (v : value).

(** What the lexer is in the middle of: nothing, a string literal (its
    characters so far in reverse, and whether the last one was an unpaired
    backslash), a number literal or a word. *)
Inductive lex_state : Type :=
| LDefault
| LString (acc : list ascii) (escaped : bool)
| LNumber (acc : list ascii)
| LWord (acc : list ascii).

Definition is_json_whitespace (c : ascii) : bool :=
  let n := N_of_ascii c in
  (n =? 32)%N || (n =? 9)%N || (n =? 10)%N || (n =? 13)%N.

Definition is_number_char (c : ascii) : bool :=
  is_digit c || (c =? "-")%char || (c =? "+")%char || (c =? ".")%char
  || (c =? "e")%char || (c =? "E")%char.

Definition is_letter (c : ascii) : bool :=
  in_range 97 122 (N_of_ascii c).

Definition word_token (w : list ascii) : option token :=
  let w := str w in
  if w =? "null" then Some (TScalar VNull)
  else if w =? "true" then Some (TScalar (VBool true))
  else if w =? "false" then Some (TScalar (VBool false))
  else None.

Definition number_token (w : list ascii) : option token :=
  option_map (fun x => TScalar (VNum x)) (parse_number w).

(** The code unit that the three bytes [a b c] encode, when it is a
    surrogate. *)
Definition surrogate_unit (a b c : ascii) : option N :=
  let '(x, y, z) := (N_of_ascii a, N_of_ascii b, N_of_ascii c) in
  if (x =? 237)%N && in_range 160 191 y && in_range 128 191 z then
    Some (55296 + (y - 160) * 64 + (z - 128))%N
  else None.

(** A high surrogate and the low surrogate after it are one code point,
    also when only one of the two was written as an escape: the two
    three-byte sequences become the four bytes of the code point. *)
Fixpoint join_surrogates (l : list ascii) : list ascii :=
  match l with
  | [] => []
  | a :: l1 =>
      match l1 with
      | b :: c :: d :: e :: f :: rest =>
          match surrogate_unit a b c, surrogate_unit d e f with
          | Some hi, Some lo =>
              if in_range 55296 56319 hi && in_range 56320 57343 lo then
                (utf8_encode (65536 + (hi - 55296) * 1024 + (lo - 56320))
                 ++ join_surrogates rest)%list
              else a :: join_surrogates l1
          | _, _ => a :: join_surrogates l1
          end
      | _ => a :: join_surrogates l1
      end
  end.

Definition string_token (w : list ascii) : option token :=
  option_map (fun l => TString (str (join_surrogates l))) (unescape w).

(** A character met outside of any literal: the token it makes, if it makes
    one by itself, and the state after it. *)
Definition lex_default (c : ascii) : option (option token * lex_state) :=
  if is_json_whitespace c then Some (None, LDefault)
  else if (c =? "{")%char then Some (Some TLBrace, LDefault)
  else if (c =? "}")%char then Some (Some TRBrace, LDefault)
  else if (c =? "[")%char then Some (Some TLBracket, LDefault)
  else if (c =? "]")%char then Some (Some TRBracket, LDefault)
  else if (c =? ",")%char then Some (Some TComma, LDefault)
  else if (c =? ":")%char then Some (Some TColon, LDefault)
  else if (c =? "034")%char then Some (None, LString [] false)
  else if is_digit c || (c =? "-")%char then Some (None, LNumber [c])
  else if is_letter c then Some (None, LWord [c])
  else None.

Definition emit (t : option token) (ts : option (list token))
  : option (list token) :=
  match t with
  | Some t => option_map (cons t) ts
  | None => ts
  end.

Fixpoint lex (st : lex_state) (l : list ascii) : option (list token) :=
  match l with
  | [] =>
      match st with
      | LDefault => Some []
      | LString _ _ => None
      | LNumber acc => option_map (fun t => [t]) (number_token (rev acc))
      | LWord acc => option_map (fun t => [t]) (word_token (rev acc))
      end
  | c :: l' =>
      match st with
      | LDefault =>
          match lex_default c with
          | Some (t, st') => emit t (lex st' l')
          | None => None
          end
      | LString acc true => lex (LString (c :: acc) false) l'
      | LString acc false =>
          if (c =? "034")%char then
            match string_token (rev acc) with
            | Some t => option_map (cons t) (lex LDefault l')
            | None => None
            end
          else lex (LString (c :: acc) (c =? "\")%char) l'
      | LNumber acc =>
          if is_number_char c then lex (LNumber (c :: acc)) l'
          else
            match number_token (rev acc), lex_default c with
            | Some n, Some (t, st') => option_map (cons n) (emit t (lex st' l'))
            | _, _ => None
            end
      | LWord acc =>
          if is_letter c then lex (LWord (c :: acc)) l'
          else
            match word_token (rev acc), lex_default c with
            | Some w, Some (t, st') => option_map (cons w) (emit t (lex st' l'))
            | _, _ => None
            end
      end
  end.

(** An open container: an array with its elements so far, in reverse, or an
    object with its properties so far and the key awaiting its value. *)
Inductive frame : Type :=
| FArray (elems : list value)
| FObject (props : obj) (key : option string).

(** What the grammar allows next. *)
Inductive expect : Type :=
| EValue            (* a value *)
| EValueOrClose     (* after an opening bracket *)
| EKeyOrClose       (* after an opening brace *)
| EKey              (* after a comma in an object *)
| EColon
| ECommaOrClose     (* after a value in a container *)
| EEnd (v : value). (* the text's value is complete *)

(** A complete value goes to the innermost open container, or is the
    result. *)
Definition push_value (v : value) (stack : list frame)
  : option (list frame * expect) :=
  match stack with
  | [] => Some ([], EEnd v)
  | FArray elems :: st => Some (FArray (v :: elems) :: st, ECommaOrClose)
  | FObject props (Some k) :: st =>
      Some (FObject (obj_set props k v) None :: st, ECommaOrClose)
  | FObject _ None :: _ => None
  end.

Definition parse_step (t : token) (stack : list frame) (e : expect)
  : option (list frame * expect) :=
  match e, t with
  | (EValue | EValueOrClose), TScalar v => push_value v stack
  | (EValue | EValueOrClose), TString s => push_value (VStr s) stack
  | (EValue | EValueOrClose), TLBracket =>
      Some (FArray [] :: stack, EValueOrClose)
  | (EValue | EValueOrClose), TLBrace =>
      Some (FObject [] None :: stack, EKeyOrClose)
  | (EValueOrClose | ECommaOrClose), TRBracket =>
      match stack with
      | FArray elems :: st => push_value (VArr (rev elems)) st
      | _ => None
      end
  | (EKeyOrClose | ECommaOrClose), TRBrace =>
      match stack with
      | FObject props None :: st => push_value (VObj props) st
      | _ => None
      end
  | (EKeyOrClose | EKey), TString k =>
      match stack with
      | FObject props None :: st => Some (FObject props (Some k) :: st, EColon)
      | _ => None
      end
  | EColon, TColon => Some (stack, EValue)
  | ECommaOrClose, TComma =>
      match stack with
      | FArray _ :: _ => Some (stack, EValue)
      | FObject _ _ :: _ => Some (stack, EKey)
      | [] => None
      end
  | _, _ => None
  end.

Fixpoint parse_tokens (ts : list token) (stack : list frame) (e : expect)
  : option value :=
  match ts with
  | [] => match e with EEnd v => Some v | _ => None end
  | t :: ts' =>
      match parse_step t stack e with
      | Some (stack', e') => parse_tokens ts' stack' e'
      | None => None
      end
  end.

Definition JSON_parse (text : string) : outcome value :=
  match lex LDefault (chars text) with
  | Some ts =>
      match parse_tokens ts [] EValue with
      | Some v => Return v
      | None => Throw (SyntaxError "JSON.parse")
      end
  | None => Throw (SyntaxError "JSON.parse")
  end.

(** *** The regular expression [/^(https:\/\/[^/]+)/] *)

Fixpoint drop_prefix (p s : string) : option string :=
  match p, s with
  | EmptyString, _ => Some s
  | String a p', String b s' =>
      if (a =? b)%char then drop_prefix p' s' else None
  | String _ _, EmptyString => None
  end.

(** The longest prefix without [/]: what a greedy [[^/]*] takes. *)
Fixpoint take_non_slash (s : string) : string :=
  match s with
  | EmptyString => EmptyString
  | String c s' =>
      if (c =? "/")%char then EmptyString else String c (take_non_slash s')
  end.

(** [s.match(/^(https:\/\/[^/]+)/)]: [None] is [null], [Some o] a match
    whose group 1 is [o]. *)
Definition match_origin (s : string) : option string :=
  match drop_prefix "https://" s with
  | Some rest =>
      let host := take_non_slash rest in
      if host =? "" then None else Some ("https://" ++ host)
  | None => None
  end.

(** [v.match(re)] for a value [v]: only strings have the method. *)
Definition call_match (v : value) : outcome (option string) :=
  match v with
  | VStr s => Return (match_origin s)
  | VUndefined | VNull =>
      Throw (TypeError "Cannot read properties of undefined")
  | _ => Throw (TypeError "match is not a function")
  end.

(** ** reports.ts, dashboards.ts: [getInstanceUrl]

    The two files hold the same helper; they differ in the name of their
    logger.  The helper's effect is the list of entries it hands to
    [logger.error]. *)

Record LogEntry : Type := {
  log_logger : string;
  log_message : string;
  log_error : exn
}.

Definition opt_value (x : option string) : value :=
  match x with
  | Some s => VStr s
  | None => VUndefined
  end.

(** A template literal's rendering of a string parameter. *)
Definition template (x : option string) : string :=
  match x with
  | Some s => s
  | None => "undefined"
  end.

Definition login_host : string := "https://login.salesforce.com".

Section InstanceUrl.

Variable logger : string.

(** Lines 13 to 21: the payload of the token, parsed. *)
Definition decodeIdToken (idToken : string) : outcome value :=
  (base64Url <-
     match nth_error (split "." idToken) 1 with
     | Some seg => Return seg
     | None => Throw (TypeError "Cannot read properties of undefined")
     end ;;
   let base64 := replace_all "_" "/" (replace_all "-" "+" base64Url) in
   binary <- atob base64 ;;
   jsonPayload <- decodeURIComponent (join (map percentEscape binary)) ;;
   JSON_parse jsonPayload)%outcome.

(** Lines 13 to 28, the body of the [try] block: [Some u] when the block
    returns [u], [None] when control leaves the block at its end. *)
Definition instanceUrlFromToken (idToken : string) : outcome (option string) :=
  (decoded <- decodeIdToken idToken ;;
   profile <- getProp decoded "profile" ;;
   if truthy profile then
     m <- call_match profile ;;
     Return m
   else
     sub <- getProp decoded "sub" ;;
     if truthy sub then
       m <- call_match sub ;;
       match m with
       | Some origin =>
           if negb (origin =? login_host) then Return (Some origin)
           else Return None
       | None => Return None
       end
     else Return None)%outcome.

Definition missing_url : exn :=
  JsError (VStr "Salesforce instance URL is required but not provided").

(** Lines 10 to 33.  The [catch] clause turns whatever the block raised into
    one call of [logger.error], after which control reaches the final
    [throw] like a block that found nothing. *)
Definition getInstanceUrl (idToken instanceUrl : option string)
  : outcome string * list LogEntry :=
  if truthy (opt_value instanceUrl) then (Return (template instanceUrl), [])
  else
    let '(found, logs) :=
      match idToken with
      | Some token =>
          if truthy (VStr token) then
            match instanceUrlFromToken token with
            | Return r => (r, [])
            | Throw error =>
                (None,
                 [{| log_logger := logger;
                     log_message := "Failed to decode Salesforce idToken";
                     log_error := error |}])
            end
          else (None, [])
      | None => (None, [])
      end in
    match found with
    | Some url => (Return url, logs)
    | None => (Throw missing_url, logs)
    end.

End InstanceUrl.

(** ** The tool descriptors

    Of a [ToolConfig] the URL builder, the method and the response
    transformer are kept.  [transformResponse] is an [async] function: its
    [outcome] is the settlement of the promise it returns. *)

(** The parameters the tools declare, all of type string; [None] is a
    parameter left [undefined]. *)
Record Params : Type := {
  accessToken : option string;
  idToken : option string;
  instanceUrl : option string;
  reportId : option string;
  includeDetails : option string;
  instanceId : option string;
  reportMetadata : option string;
  dashboardId : option string;
  componentId : option string;
  name : option string;
  folderId : option string
}.

(** The response of the request: its status, and how [response.json()]
    settles. *)
Record Response : Type := {
  status : Z;
  json : outcome value
}.

(** [response.ok]: the status is in the range 200 to 299. *)
Definition ok (r : Response) : bool :=
  (200 <=? status r)%Z && (status r <=? 299)%Z.

Record ToolConfig : Type := {
  id : string;
  url : Params -> outcome string * list LogEntry;
  method : string;
  transformResponse : Response -> Params -> outcome value
}.

(** The rest of a URL builder, after [getInstanceUrl]. *)
Definition withInstanceUrl (r : outcome string * list LogEntry)
  (k : string -> string) : outcome string * list LogEntry :=
  (obind (fst r) (fun i => Return (k i)), snd r).

(** [data[0]?.message || data.message || fallback] *)
Definition errorMessage (data : value) (fallback : string) : outcome value :=
  (first <- getProp data "0" ;;
   m0 <- getPropOpt first "message" ;;
   if truthy m0 then Return m0
   else
     m1 <- getProp data "message" ;;
     Return (js_or m1 (VStr fallback)))%outcome.

(** [throw new Error(data[0]?.message || data.message || fallback)] *)
Definition throwError (data : value) (fallback : string) : outcome value :=
  (m <- errorMessage data fallback ;; Throw (JsError m))%outcome.

(** [response.json().catch(() => ({}))] *)
Definition jsonOrEmpty (r : Response) : value :=
  match json r with
  | Return data => data
  | Throw _ => VObj []
  end.

Definition operationMetadata (operation : string) : value :=
  VObj [("operation", VStr operation)].

Definition envelope (output : obj) : value :=
  VObj [("success", VBool true); ("output", VObj output)].

Module Reports.

Definition logger : string := "SalesforceReports".

Definition salesforceListReportsTool : ToolConfig := {|
  id := "salesforce_list_reports";
  url := fun params =>
    withInstanceUrl (getInstanceUrl logger (idToken params) (instanceUrl params))
      (fun instanceUrl => instanceUrl ++ "/services/data/v59.0/analytics/reports");
  method := "GET";
  transformResponse := fun response params =>
    (data <- json response ;;
     if negb (ok response) then throwError data "Failed to list reports"
     else Return (envelope
       [("reports", data);
        ("metadata", operationMetadata "list_reports");
        ("success", VBool true)]))%outcome
|}.

Definition salesforceGetReportMetadataTool : ToolConfig := {|
  id := "salesforce_get_report_metadata";
  url := fun params =>
    withInstanceUrl (getInstanceUrl logger (idToken params) (instanceUrl params))
      (fun instanceUrl =>
         instanceUrl ++ "/services/data/v59.0/analytics/reports/"
         ++ template (reportId params) ++ "/describe");
  method := "GET";
  transformResponse := fun response params =>
    (data <- json response ;;
     if negb (ok response) then throwError data "Failed to get report metadata"
     else Return (envelope
       [("reportId", opt_value (reportId params));
        ("metadata", data);
        ("operation", VStr "get_report_metadata");
        ("success", VBool true)]))%outcome
|}.

Definition salesforceRunReportTool : ToolConfig := {|
  id := "salesforce_run_report";
  url := fun params =>
    withInstanceUrl (getInstanceUrl logger (idToken params) (instanceUrl params))
      (fun instanceUrl =>
         let includeDetails :=
           negb (match includeDetails params with
                 | Some s => s =? "false"
                 | None => false
                 end) in
         instanceUrl ++ "/services/data/v59.0/analytics/reports/"
         ++ template (reportId params) ++ "?includeDetails="
         ++ (if includeDetails then "true" else "false"));
  method := "GET";
  transformResponse := fun response params =>
    (data <- json response ;;
     if negb (ok response) then throwError data "Failed to run report"
     else Return (envelope
       [("reportId", opt_value (reportId params));
        ("reportData", data);
        ("metadata", operationMetadata "run_report");
        ("success", VBool true)]))%outcome
|}.

Definition salesforceRunReportAsyncTool : ToolConfig := {|
  id := "salesforce_run_report_async";
  url := fun params =>
    withInstanceUrl (getInstanceUrl logger (idToken params) (instanceUrl params))
      (fun instanceUrl =>
         let includeDetails :=
           negb (match includeDetails params with
                 | Some s => s =? "false"
                 | None => false
                 end) in
         instanceUrl ++ "/services/data/v59.0/analytics/reports/"
         ++ template (reportId params) ++ "/instances?includeDetails="
         ++ (if includeDetails then "true" else "false"));
  method := "POST";
  transformResponse := fun response params =>
    (data <- json response ;;
     if negb (ok response) then
       throwError data "Failed to run report asynchronously"
     else
       instanceId <- getProp data "id" ;;
       status <- getProp data "status" ;;
       requestDate <- getProp data "requestDate" ;;
       Return (envelope
         [("reportId", opt_value (reportId params));
          ("instanceId", instanceId);
          ("status", status);
          ("requestDate", requestDate);
          ("metadata", operationMetadata "run_report_async");
          ("success", VBool true)]))%outcome
|}.

Definition salesforceGetReportInstanceTool : ToolConfig := {|
  id := "salesforce_get_report_instance";
  url := fun params =>
    withInstanceUrl (getInstanceUrl logger (idToken params) (instanceUrl params))
      (fun instanceUrl =>
         instanceUrl ++ "/services/data/v59.0/analytics/reports/"
         ++ template (reportId params) ++ "/instances/"
         ++ template (instanceId params));
  method := "GET";
  transformResponse := fun response params =>
    (data <- json response ;;
     if negb (ok response) then throwError data "Failed to get report instance"
     else Return (envelope
       [("reportId", opt_value (reportId params));
        ("instanceId", opt_value (instanceId params));
        ("reportData", data);
        ("metadata", operationMetadata "get_report_instance");
        ("success", VBool true)]))%outcome
|}.

Definition salesforceListReportInstancesTool : ToolConfig := {|
  id := "salesforce_list_report_instances";
  url := fun params =>
    withInstanceUrl (getInstanceUrl logger (idToken params) (instanceUrl params))
      (fun instanceUrl =>
         instanceUrl ++ "/services/data/v59.0/analytics/reports/"
         ++ template (reportId params) ++ "/instances");
  method := "GET";
  transformResponse := fun response params =>
    (data <- json response ;;
     if negb (ok response) then
       throwError data "Failed to list report instances"
     else Return (envelope
       [("reportId", opt_value (reportId params));
        ("instances", data);
        ("metadata", operationMetadata "list_report_instances");
        ("success", VBool true)]))%outcome
|}.

Definition salesforceDeleteReportInstanceTool : ToolConfig := {|
  id := "salesforce_delete_report_instance";
  url := fun params =>
    withInstanceUrl (getInstanceUrl logger (idToken params) (instanceUrl params))
      (fun instanceUrl =>
         instanceUrl ++ "/services/data/v59.0/analytics/reports/"
         ++ template (reportId params) ++ "/instances/"
         ++ template (instanceId params));
  method := "DELETE";
  transformResponse := fun response params =>
    if negb (ok response) then
      let data := jsonOrEmpty response in
      throwError data "Failed to delete report instance"
    else Return (envelope
      [("reportId", opt_value (reportId params));
       ("instanceId", opt_value (instanceId params));
       ("deleted", VBool true);
       ("metadata", operationMetadata "delete_report_instance")])
|}.

Definition salesforceRunReportWithFiltersTool : ToolConfig := {|
  id := "salesforce_run_report_with_filters";
  url := fun params =>
    withInstanceUrl (getInstanceUrl logger (idToken params) (instanceUrl params))
      (fun instanceUrl =>
         instanceUrl ++ "/services/data/v59.0/analytics/reports/"
         ++ template (reportId params));
  method := "POST";
  transformResponse := fun response params =>
    (data <- json response ;;
     if negb (ok response) then
       throwError data "Failed to run report with filters"
     else Return (envelope
       [("reportId", opt_value (reportId params));
        ("reportData", data);
        ("metadata", operationMetadata "run_report_with_filters");
        ("success", VBool true)]))%outcome
|}.

Definition salesforceCreateReportTool : ToolConfig := {|
  id := "salesforce_create_report";
  url := fun params =>
    withInstanceUrl (getInstanceUrl logger (idToken params) (instanceUrl params))
      (fun instanceUrl => instanceUrl ++ "/services/data/v59.0/analytics/reports");
  method := "POST";
  transformResponse := fun response params =>
    (data <- json response ;;
     if negb (ok response) then throwError data "Failed to create report"
     else
       reportId <- getProp data "id" ;;
       Return (envelope
         [("reportId", reportId);
          ("report", data);
          ("created", VBool true);
          ("metadata", operationMetadata "create_report");
          ("success", VBool true)]))%outcome
|}.

Definition salesforceUpdateReportTool : ToolConfig := {|
  id := "salesforce_update_report";
  url := fun params =>
    withInstanceUrl (getInstanceUrl logger (idToken params) (instanceUrl params))
      (fun instanceUrl =>
         instanceUrl ++ "/services/data/v59.0/analytics/reports/"
         ++ template (reportId params));
  method := "PATCH";
  transformResponse := fun response params =>
    (data <- json response ;;
     if negb (ok response) then throwError data "Failed to update report"
     else Return (envelope
       [("reportId", opt_value (reportId params));
        ("report", data);
        ("updated", VBool true);
        ("metadata", operationMetadata "update_report");
        ("success", VBool true)]))%outcome
|}.

Definition salesforceDeleteReportTool : ToolConfig := {|
  id := "salesforce_delete_report";
  url := fun params =>
    withInstanceUrl (getInstanceUrl logger (idToken params) (instanceUrl params))
      (fun instanceUrl =>
         instanceUrl ++ "/services/data/v59.0/analytics/reports/"
         ++ template (reportId params));
  method := "DELETE";
  transformResponse := fun response params =>
    if negb (ok response) then
      let data := jsonOrEmpty response in
      throwError data "Failed to delete report"
    else Return (envelope
      [("reportId", opt_value (reportId params));
       ("deleted", VBool true);
       ("metadata", operationMetadata "delete_report")])
|}.

End Reports.

Module Dashboards.

Definition logger : string := "SalesforceDashboards".

Definition salesforceListDashboardsTool : ToolConfig := {|
  id := "salesforce_list_dashboards";
  url := fun params =>
    withInstanceUrl (getInstanceUrl logger (idToken params) (instanceUrl params))
      (fun instanceUrl =>
         instanceUrl ++ "/services/data/v59.0/analytics/dashboards");
  method := "GET";
  transformResponse := fun response params =>
    (data <- json response ;;
     if negb (ok response) then throwError data "Failed to list dashboards"
     else Return (envelope
       [("dashboards", data);
        ("metadata", operationMetadata "list_dashboards");
        ("success", VBool true)]))%outcome
|}.

Definition salesforceGetDashboardTool : ToolConfig := {|
  id := "salesforce_get_dashboard";
  url := fun params =>
    withInstanceUrl (getInstanceUrl logger (idToken params) (instanceUrl params))
      (fun instanceUrl =>
         instanceUrl ++ "/services/data/v59.0/analytics/dashboards/"
         ++ template (dashboardId params) ++ "/describe");
  method := "GET";
  transformResponse := fun response params =>
    (data <- json response ;;
     if negb (ok response) then throwError data "Failed to get dashboard"
     else Return (envelope
       [("dashboardId", opt_value (dashboardId params));
        ("dashboard", data);
        ("metadata", operationMetadata "get_dashboard");
        ("success", VBool true)]))%outcome
|}.

Definition salesforceRefreshDashboardTool : ToolConfig := {|
  id := "salesforce_refresh_dashboard";
  url := fun params =>
    withInstanceUrl (getInstanceUrl logger (idToken params) (instanceUrl params))
      (fun instanceUrl =>
         instanceUrl ++ "/services/data/v59.0/analytics/dashboards/"
         ++ template (dashboardId params));
  method := "GET";
  transformResponse := fun response params =>
    (data <- json response ;;
     if negb (ok response) then throwError data "Failed to refresh dashboard"
     else Return (envelope
       [("dashboardId", opt_value (dashboardId params));
        ("dashboardData", data);
        ("metadata", operationMetadata "refresh_dashboard");
        ("success", VBool true)]))%outcome
|}.

Definition salesforceCloneDashboardTool : ToolConfig := {|
  id := "salesforce_clone_dashboard";
  url := fun params =>
    withInstanceUrl (getInstanceUrl logger (idToken params) (instanceUrl params))
      (fun instanceUrl =>
         instanceUrl ++ "/services/data/v59.0/analytics/dashboards");
  method := "POST";
  transformResponse := fun response params =>
    (data <- json response ;;
     if negb (ok response) then throwError data "Failed to clone dashboard"
     else
       newDashboardId <- getProp data "id" ;;
       Return (envelope
         [("sourceDashboardId", opt_value (dashboardId params));
          ("newDashboardId", newDashboardId);
          ("name", opt_value (name params));
          ("dashboard", data);
          ("metadata", operationMetadata "clone_dashboard");
          ("success", VBool true)]))%outcome
|}.

Definition salesforceDeleteDashboardTool : ToolConfig := {|
  id := "salesforce_delete_dashboard";
  url := fun params =>
    withInstanceUrl (getInstanceUrl logger (idToken params) (instanceUrl params))
      (fun instanceUrl =>
         instanceUrl ++ "/services/data/v59.0/analytics/dashboards/"
         ++ template (dashboardId params));
  method := "DELETE";
  transformResponse := fun response params =>
    if negb (ok response) then
      let data := jsonOrEmpty response in
      throwError data "Failed to delete dashboard"
    else Return (envelope
      [("dashboardId", opt_value (dashboardId params));
       ("deleted", VBool true);
       ("metadata", operationMetadata "delete_dashboard")])
|}.

Definition salesforceGetDashboardComponentTool : ToolConfig := {|
  id := "salesforce_get_dashboard_component";
  url := fun params =>
    withInstanceUrl (getInstanceUrl logger (idToken params) (instanceUrl params))
      (fun instanceUrl =>
         instanceUrl ++ "/services/data/v59.0/analytics/dashboards/"
         ++ template (dashboardId params) ++ "/components/"
         ++ template (componentId params));
  method := "GET";
  transformResponse := fun response params =>
    (data <- json response ;;
     if negb (ok response) then
       throwError data "Failed to get dashboard component"
     else Return (envelope
       [("dashboardId", opt_value (dashboardId params));
        ("componentId", opt_value (componentId params));
        ("componentData", data);
        ("metadata", operationMetadata "get_dashboard_component");
        ("success", VBool true)]))%outcome
|}.

End Dashboards.

(** The tools of the two files, in the order of their definitions, each with
    the fixed message it falls back to. *)
Definition deleteTools : list (ToolConfig * string) :=
  [(Reports.salesforceDeleteReportInstanceTool,
    "Failed to delete report instance");
   (Reports.salesforceDeleteReportTool, "Failed to delete report");
   (Dashboards.salesforceDeleteDashboardTool, "Failed to delete dashboard")].

Definition readTools : list (ToolConfig * string) :=
  [(Reports.salesforceListReportsTool, "Failed to list reports");
   (Reports.salesforceGetReportMetadataTool, "Failed to get report metadata");
   (Reports.salesforceRunReportTool, "Failed to run report");
   (Reports.salesforceRunReportAsyncTool,
    "Failed to run report asynchronously");
   (Reports.salesforceGetReportInstanceTool, "Failed to get report instance");
   (Reports.salesforceListReportInstancesTool,
    "Failed to list report instances");
   (Reports.salesforceRunReportWithFiltersTool,
    "Failed to run report with filters");
   (Reports.salesforceCreateReportTool, "Failed to create report");
   (Reports.salesforceUpdateReportTool, "Failed to update report");
   (Dashboards.salesforceListDashboardsTool, "Failed to list dashboards");
   (Dashboards.salesforceGetDashboardTool, "Failed to get dashboard");
   (Dashboards.salesforceRefreshDashboardTool, "Failed to refresh dashboard");
   (Dashboards.salesforceCloneDashboardTool, "Failed to clone dashboard");
   (Dashboards.salesforceGetDashboardComponentTool,
    "Failed to get dashboard component")].

Definition allTools : list ToolConfig :=
  map fst readTools ++ map fst deleteTools.

(** ** The block descriptor *)

Module SalesforceBlock.

(** The ids of the options of the [operation] dropdown. *)
Definition operationIds : list string :=
  ["get_accounts"; "create_account"; "update_account"; "delete_account";
   "get_contacts"; "create_contact"; "update_contact"; "delete_contact";
   "get_leads"; "create_lead"; "update_lead"; "delete_lead";
   "get_opportunities"; "create_opportunity"; "update_opportunity";
   "delete_opportunity";
   "get_cases"; "create_case"; "update_case"; "delete_case";
   "get_tasks"; "create_task"; "update_task"; "delete_task";
   "list_reports"; "get_report_metadata"; "run_report"; "run_report_async";
   "get_report_instance"; "list_report_instances"; "delete_report_instance";
   "run_report_with_filters"; "create_report"; "update_report";
   "delete_report";
   "list_dashboards"; "get_dashboard"; "refresh_dashboard"; "clone_dashboard";
   "delete_dashboard"; "get_dashboard_component"].

(** [tools.access] *)
Definition access : list string :=
  ["salesforce_get_accounts"; "salesforce_create_account";
   "salesforce_update_account"; "salesforce_delete_account";
   "salesforce_get_contacts"; "salesforce_create_contact";
   "salesforce_update_contact"; "salesforce_delete_contact";
   "salesforce_get_leads"; "salesforce_create_lead";
   "salesforce_update_lead"; "salesforce_delete_lead";
   "salesforce_get_opportunities"; "salesforce_create_opportunity";
   "salesforce_update_opportunity"; "salesforce_delete_opportunity";
   "salesforce_get_cases"; "salesforce_create_case";
   "salesforce_update_case"; "salesforce_delete_case";
   "salesforce_get_tasks"; "salesforce_create_task";
   "salesforce_update_task"; "salesforce_delete_task";
   "salesforce_list_reports"; "salesforce_get_report_metadata";
   "salesforce_run_report"; "salesforce_run_report_async";
   "salesforce_get_report_instance"; "salesforce_list_report_instances";
   "salesforce_delete_report_instance"; "salesforce_run_report_with_filters";
   "salesforce_create_report"; "salesforce_update_report";
   "salesforce_delete_report";
   "salesforce_list_dashboards"; "salesforce_get_dashboard";
   "salesforce_refresh_dashboard"; "salesforce_clone_dashboard";
   "salesforce_delete_dashboard"; "salesforce_get_dashboard_component"].

(** The [case] clauses of the switch of [tools.config.tool], in order: the
    label and the string returned. *)
Definition cases : list (string * string) :=
  [("get_accounts", "salesforce_get_accounts");
   ("create_account", "salesforce_create_account");
   ("update_account", "salesforce_update_account");
   ("delete_account", "salesforce_delete_account");
   ("get_contacts", "salesforce_get_contacts");
   ("create_contact", "salesforce_create_contact");
   ("update_contact", "salesforce_update_contact");
   ("delete_contact", "salesforce_delete_contact");
   ("get_leads", "salesforce_get_leads");
   ("create_lead", "salesforce_create_lead");
   ("update_lead", "salesforce_update_lead");
   ("delete_lead", "salesforce_delete_lead");
   ("get_opportunities", "salesforce_get_opportunities");
   ("create_opportunity", "salesforce_create_opportunity");
   ("update_opportunity", "salesforce_update_opportunity");
   ("delete_opportunity", "salesforce_delete_opportunity");
   ("get_cases", "salesforce_get_cases");
   ("create_case", "salesforce_create_case");
   ("update_case", "salesforce_update_case");
   ("delete_case", "salesforce_delete_case");
   ("get_tasks", "salesforce_get_tasks");
   ("create_task", "salesforce_create_task");
   ("update_task", "salesforce_update_task");
   ("delete_task", "salesforce_delete_task");
   ("list_reports", "salesforce_list_reports");
   ("get_report_metadata", "salesforce_get_report_metadata");
   ("run_report", "salesforce_run_report");
   ("run_report_async", "salesforce_run_report_async");
   ("get_report_instance", "salesforce_get_report_instance");
   ("list_report_instances", "salesforce_list_report_instances");
   ("delete_report_instance", "salesforce_delete_report_instance");
   ("run_report_with_filters", "salesforce_run_report_with_filters");
   ("create_report", "salesforce_create_report");
   ("update_report", "salesforce_update_report");
   ("delete_report", "salesforce_delete_report");
   ("list_dashboards", "salesforce_list_dashboards");
   ("get_dashboard", "salesforce_get_dashboard");
   ("refresh_dashboard", "salesforce_refresh_dashboard");
   ("clone_dashboard", "salesforce_clone_dashboard");
   ("delete_dashboard", "salesforce_delete_dashboard");
   ("get_dashboard_component", "salesforce_get_dashboard_component")].

(** [switch (x) { case l: return r ... default: throw e }]: the first
    clause whose label is strictly equal to [x] decides. *)
Fixpoint switch (x : string) (clauses : list (string * string)) (default : exn)
  : outcome string :=
  match clauses with
  | [] => Throw default
  | (label, result) :: rest =>
      if x =? label then Return result else switch x rest default
  end.

(** [tools.config.tool], on the string [params.operation]. *)
Definition tool (operation : string) : outcome string :=
  switch operation cases
         (JsError (VStr ("Unknown operation: " ++ operation))).

(** [value !== undefined && value !== null && value !== ''] *)
Definition is_set (v : value) : bool :=
  match v with
  | VUndefined | VNull => false
  | VStr s => negb (s =? "")
  | _ => true
  end.

(** [const { credential, operation, ...rest } = params]: the own properties
    of [params] but these two, in their order. *)
Definition rest_of (bag : obj) : obj :=
  filter (fun kv => negb ((fst kv =? "credential") || (fst kv =? "operation")))
         bag.

Definition own (bag : obj) (k : string) : value :=
  match lookup k bag with
  | Some v => v
  | None => VUndefined
  end.

(** [tools.config.params] *)
Definition params (bag : obj) : obj :=
  let credential := own bag "credential" in
  let rest := rest_of bag in
  fold_left
    (fun cleanParams kv =>
       if is_set (snd kv) then obj_assign cleanParams (fst kv) (snd kv)
       else cleanParams)
    rest
    [("credential", credential)].

End SalesforceBlock.

(** ** The declarations of the tools' parameters

    Each tool declares its parameters ([params]), all of type string, with
    a [required] flag and a [visibility]. *)

Inductive Visibility : Type := Hidden | UserOnly.

Record ParamSpec : Type := {
  param : string;
  required : bool;
  visibility : Visibility
}.

Definition hiddenParams : list ParamSpec :=
  [{| param := "accessToken"; required := true; visibility := Hidden |};
   {| param := "idToken"; required := false; visibility := Hidden |};
   {| param := "instanceUrl"; required := false; visibility := Hidden |}].

(** The declared parameters of each tool, by the tool's id, in the order
    of the declaration; every tool starts with the three hidden parameters
    [accessToken], [idToken] and [instanceUrl]. *)
Definition toolParams : list (string * list ParamSpec) :=
  [("salesforce_list_reports",
    hiddenParams);
   ("salesforce_get_report_metadata",
    (hiddenParams ++
     [{| param := "reportId"; required := true;
         visibility := UserOnly |}])%list);
   ("salesforce_run_report",
    (hiddenParams ++
     [{| param := "reportId"; required := true;
         visibility := UserOnly |};
      {| param := "includeDetails"; required := false;
         visibility := UserOnly |}])%list);
   ("salesforce_run_report_async",
    (hiddenParams ++
     [{| param := "reportId"; required := true;
         visibility := UserOnly |};
      {| param := "includeDetails"; required := false;
         visibility := UserOnly |}])%list);
   ("salesforce_get_report_instance",
    (hiddenParams ++
     [{| param := "reportId"; required := true;
         visibility := UserOnly |};
      {| param := "instanceId"; required := true;
         visibility := UserOnly |}])%list);
   ("salesforce_list_report_instances",
    (hiddenParams ++
     [{| param := "reportId"; required := true;
         visibility := UserOnly |}])%list);
   ("salesforce_delete_report_instance",
    (hiddenParams ++
     [{| param := "reportId"; required := true;
         visibility := UserOnly |};
      {| param := "instanceId"; required := true;
         visibility := UserOnly |}])%list);
   ("salesforce_run_report_with_filters",
    (hiddenParams ++
     [{| param := "reportId"; required := true;
         visibility := UserOnly |};
      {| param := "reportMetadata"; required := true;
         visibility := UserOnly |}])%list);
   ("salesforce_create_report",
    (hiddenParams ++
     [{| param := "reportMetadata"; required := true;
         visibility := UserOnly |}])%list);
   ("salesforce_update_report",
    (hiddenParams ++
     [{| param := "reportId"; required := true;
         visibility := UserOnly |};
      {| param := "reportMetadata"; required := true;
         visibility := UserOnly |}])%list);
   ("salesforce_delete_report",
    (hiddenParams ++
     [{| param := "reportId"; required := true;
         visibility := UserOnly |}])%list);
   ("salesforce_list_dashboards",
    hiddenParams);
   ("salesforce_get_dashboard",
    (hiddenParams ++
     [{| param := "dashboardId"; required := true;
         visibility := UserOnly |}])%list);
   ("salesforce_refresh_dashboard",
    (hiddenParams ++
     [{| param := "dashboardId"; required := true;
         visibility := UserOnly |}])%list);
   ("salesforce_clone_dashboard",
    (hiddenParams ++
     [{| param := "dashboardId"; required := true;
         visibility := UserOnly |};
      {| param := "name"; required := true;
         visibility := UserOnly |};
      {| param := "folderId"; required := false;
         visibility := UserOnly |}])%list);
   ("salesforce_delete_dashboard",
    (hiddenParams ++
     [{| param := "dashboardId"; required := true;
         visibility := UserOnly |}])%list);
   ("salesforce_get_dashboard_component",
    (hiddenParams ++
     [{| param := "dashboardId"; required := true;
         visibility := UserOnly |};
      {| param := "componentId"; required := true;
         visibility := UserOnly |}])%list)].


(** ** The sub-blocks of the block descriptor

    Of a sub-block its [id], its [required] flag (absent is [false]) and its
    [condition] are kept; every condition is on the field [operation] and
    gives the list of the operations for which the sub-block is meant. *)

Record SubBlock : Type := {
  sb_id : string;
  sb_required : bool;
  sb_condition : option (list string)
}.

Definition subBlocks : list SubBlock :=
  [{| sb_id := "operation"; sb_required := false;
      sb_condition := None |};
   {| sb_id := "credential"; sb_required := true;
      sb_condition := None |};
   {| sb_id := "fields"; sb_required := false;
      sb_condition := Some
       ["get_accounts"; "get_contacts"; "get_leads"; "get_opportunities";
        "get_cases"; "get_tasks"] |};
   {| sb_id := "limit"; sb_required := false;
      sb_condition := Some
       ["get_accounts"; "get_contacts"; "get_leads"; "get_opportunities";
        "get_cases"; "get_tasks"] |};
   {| sb_id := "orderBy"; sb_required := false;
      sb_condition := Some
       ["get_accounts"; "get_contacts"; "get_leads"; "get_opportunities";
        "get_cases"; "get_tasks"] |};
   {| sb_id := "accountId"; sb_required := false;
      sb_condition := Some
       ["update_account"; "delete_account"; "create_contact";
        "update_contact"; "create_case"] |};
   {| sb_id := "name"; sb_required := false;
      sb_condition := Some
       ["create_account"; "update_account"; "create_opportunity";
        "update_opportunity"; "clone_dashboard"] |};
   {| sb_id := "type"; sb_required := false;
      sb_condition := Some
       ["create_account"; "update_account"] |};
   {| sb_id := "industry"; sb_required := false;
      sb_condition := Some
       ["create_account"; "update_account"] |};
   {| sb_id := "phone"; sb_required := false;
      sb_condition := Some
       ["create_account"; "update_account"; "create_contact";
        "update_contact"; "create_lead"; "update_lead"] |};
   {| sb_id := "website"; sb_required := false;
      sb_condition := Some
       ["create_account"; "update_account"] |};
   {| sb_id := "contactId"; sb_required := false;
      sb_condition := Some
       ["get_contacts"; "update_contact"; "delete_contact"; "create_case"] |};
   {| sb_id := "lastName"; sb_required := false;
      sb_condition := Some
       ["create_contact"; "update_contact"; "create_lead"; "update_lead"] |};
   {| sb_id := "firstName"; sb_required := false;
      sb_condition := Some
       ["create_contact"; "update_contact"; "create_lead"; "update_lead"] |};
   {| sb_id := "email"; sb_required := false;
      sb_condition := Some
       ["create_contact"; "update_contact"; "create_lead"; "update_lead"] |};
   {| sb_id := "title"; sb_required := false;
      sb_condition := Some
       ["create_contact"; "update_contact"; "create_lead"; "update_lead"] |};
   {| sb_id := "leadId"; sb_required := false;
      sb_condition := Some
       ["get_leads"; "update_lead"; "delete_lead"] |};
   {| sb_id := "company"; sb_required := false;
      sb_condition := Some
       ["create_lead"; "update_lead"] |};
   {| sb_id := "status"; sb_required := false;
      sb_condition := Some
       ["create_lead"; "update_lead"; "create_case"; "update_case";
        "create_task"; "update_task"] |};
   {| sb_id := "leadSource"; sb_required := false;
      sb_condition := Some
       ["create_lead"; "update_lead"] |};
   {| sb_id := "opportunityId"; sb_required := false;
      sb_condition := Some
       ["get_opportunities"; "update_opportunity"; "delete_opportunity"] |};
   {| sb_id := "stageName"; sb_required := false;
      sb_condition := Some
       ["create_opportunity"; "update_opportunity"] |};
   {| sb_id := "closeDate"; sb_required := true;
      sb_condition := Some
       ["create_opportunity"; "update_opportunity"] |};
   {| sb_id := "amount"; sb_required := false;
      sb_condition := Some
       ["create_opportunity"; "update_opportunity"] |};
   {| sb_id := "probability"; sb_required := false;
      sb_condition := Some
       ["create_opportunity"; "update_opportunity"] |};
   {| sb_id := "caseId"; sb_required := false;
      sb_condition := Some
       ["get_cases"; "update_case"; "delete_case"] |};
   {| sb_id := "subject"; sb_required := false;
      sb_condition := Some
       ["create_case"; "update_case"; "create_task"; "update_task"] |};
   {| sb_id := "priority"; sb_required := false;
      sb_condition := Some
       ["create_case"; "update_case"; "create_task"; "update_task"] |};
   {| sb_id := "origin"; sb_required := false;
      sb_condition := Some
       ["create_case"] |};
   {| sb_id := "taskId"; sb_required := false;
      sb_condition := Some
       ["get_tasks"; "update_task"; "delete_task"] |};
   {| sb_id := "activityDate"; sb_required := false;
      sb_condition := Some
       ["create_task"; "update_task"] |};
   {| sb_id := "whoId"; sb_required := false;
      sb_condition := Some
       ["create_task"] |};
   {| sb_id := "whatId"; sb_required := false;
      sb_condition := Some
       ["create_task"] |};
   {| sb_id := "reportId"; sb_required := true;
      sb_condition := Some
       ["get_report_metadata"; "run_report"; "run_report_async";
        "get_report_instance"; "list_report_instances";
        "delete_report_instance"; "run_report_with_filters";
        "update_report"; "delete_report"] |};
   {| sb_id := "instanceId"; sb_required := true;
      sb_condition := Some
       ["get_report_instance"; "delete_report_instance"] |};
   {| sb_id := "includeDetails"; sb_required := false;
      sb_condition := Some
       ["run_report"; "run_report_async"] |};
   {| sb_id := "dashboardId"; sb_required := true;
      sb_condition := Some
       ["get_dashboard"; "refresh_dashboard"; "clone_dashboard";
        "delete_dashboard"; "get_dashboard_component"] |};
   {| sb_id := "componentId"; sb_required := true;
      sb_condition := Some
       ["get_dashboard_component"] |};
   {| sb_id := "folderId"; sb_required := false;
      sb_condition := Some
       ["clone_dashboard"] |};
   {| sb_id := "description"; sb_required := false;
      sb_condition := Some
       ["create_account"; "update_account"; "create_contact";
        "update_contact"; "create_lead"; "update_lead";
        "create_opportunity"; "update_opportunity"; "create_case";
        "update_case"; "create_task"; "update_task"] |};
   {| sb_id := "reportMetadata"; sb_required := true;
      sb_condition := Some
       ["run_report_with_filters"; "create_report"; "update_report"] |}].

(** ** The request builders: headers and body

    [request.headers] and [request.body] of each tool, by the tool's id.  A
    tool without a body builder has [None]. *)

Record Request : Type := {
  headers : Params -> obj;
  body : option (Params -> outcome value)
}.

(** [try { ... } catch (error) { ... }] around a computation. *)
Definition try_catch {A} (block : outcome A) (handler : exn -> outcome A)
  : outcome A :=
  match block with
  | Return a => Return a
  | Throw error => handler error
  end.

Definition invalid_metadata : exn :=
  JsError (VStr "Invalid JSON in reportMetadata parameter").

Definition requests : list (string * Request) :=
  [("salesforce_list_reports",
    {| headers := fun params =>
         [("Authorization", VStr ("Bearer " ++ template (accessToken params)));
          ("Content-Type", VStr "application/json")];
       body := None |});
   ("salesforce_get_report_metadata",
    {| headers := fun params =>
         [("Authorization", VStr ("Bearer " ++ template (accessToken params)));
          ("Content-Type", VStr "application/json")];
       body := None |});
   ("salesforce_run_report",
    {| headers := fun params =>
         [("Authorization", VStr ("Bearer " ++ template (accessToken params)));
          ("Content-Type", VStr "application/json")];
       body := None |});
   ("salesforce_run_report_async",
    {| headers := fun params =>
         [("Authorization", VStr ("Bearer " ++ template (accessToken params)));
          ("Content-Type", VStr "application/json")];
       body := Some (fun _ => Return (VObj [])) |});
   ("salesforce_get_report_instance",
    {| headers := fun params =>
         [("Authorization", VStr ("Bearer " ++ template (accessToken params)));
          ("Content-Type", VStr "application/json")];
       body := None |});
   ("salesforce_list_report_instances",
    {| headers := fun params =>
         [("Authorization", VStr ("Bearer " ++ template (accessToken params)));
          ("Content-Type", VStr "application/json")];
       body := None |});
   ("salesforce_delete_report_instance",
    {| headers := fun params =>
         [("Authorization", VStr ("Bearer " ++ template (accessToken params)))];
       body := None |});
   ("salesforce_run_report_with_filters",
    {| headers := fun params =>
         [("Authorization", VStr ("Bearer " ++ template (accessToken params)));
          ("Content-Type", VStr "application/json")];
       body := Some (fun params =>
         try_catch
           (JSON_parse (template (reportMetadata params)))
           (fun error => Throw invalid_metadata)) |});
   ("salesforce_create_report",
    {| headers := fun params =>
         [("Authorization", VStr ("Bearer " ++ template (accessToken params)));
          ("Content-Type", VStr "application/json")];
       body := Some (fun params =>
         try_catch
           (parsed <- JSON_parse (template (reportMetadata params)) ;;
            wrapped <- getProp parsed "reportMetadata" ;;
            if truthy wrapped then Return parsed
            else Return (VObj [("reportMetadata", parsed)]))%outcome
           (fun error => Throw invalid_metadata)) |});
   ("salesforce_update_report",
    {| headers := fun params =>
         [("Authorization", VStr ("Bearer " ++ template (accessToken params)));
          ("Content-Type", VStr "application/json")];
       body := Some (fun params =>
         try_catch
           (parsed <- JSON_parse (template (reportMetadata params)) ;;
            wrapped <- getProp parsed "reportMetadata" ;;
            if truthy wrapped then Return parsed
            else Return (VObj [("reportMetadata", parsed)]))%outcome
           (fun error => Throw invalid_metadata)) |});
   ("salesforce_delete_report",
    {| headers := fun params =>
         [("Authorization", VStr ("Bearer " ++ template (accessToken params)))];
       body := None |});
   ("salesforce_list_dashboards",
    {| headers := fun params =>
         [("Authorization", VStr ("Bearer " ++ template (accessToken params)));
          ("Content-Type", VStr "application/json")];
       body := None |});
   ("salesforce_get_dashboard",
    {| headers := fun params =>
         [("Authorization", VStr ("Bearer " ++ template (accessToken params)));
          ("Content-Type", VStr "application/json")];
       body := None |});
   ("salesforce_refresh_dashboard",
    {| headers := fun params =>
         [("Authorization", VStr ("Bearer " ++ template (accessToken params)));
          ("Content-Type", VStr "application/json")];
       body := None |});
   ("salesforce_clone_dashboard",
    {| headers := fun params =>
         [("Authorization", VStr ("Bearer " ++ template (accessToken params)));
          ("Content-Type", VStr "application/json")];
       body := Some (fun params =>
         let body := [("name", opt_value (name params));
                      ("sourceId", opt_value (dashboardId params))] in
         let body :=
           if truthy (opt_value (folderId params))
           then obj_assign body "folderId" (opt_value (folderId params))
           else body in
         Return (VObj body)) |});
   ("salesforce_delete_dashboard",
    {| headers := fun params =>
         [("Authorization", VStr ("Bearer " ++ template (accessToken params)))];
       body := None |});
   ("salesforce_get_dashboard_component",
    {| headers := fun params =>
         [("Authorization", VStr ("Bearer " ++ template (accessToken params)));
          ("Content-Type", VStr "application/json")];
       body := None |})].

(** The request of a tool. *)
Fixpoint requestOf (toolId : string) (table : list (string * Request))
  : option Request :=
  match table with
  | [] => None
  | (i, r) :: rest => if i =? toolId then Some r else requestOf toolId rest
  end.

(** The tools of each file, in the order of their definitions. *)
Definition reportTools : list ToolConfig :=
  [Reports.salesforceListReportsTool;
   Reports.salesforceGetReportMetadataTool;
   Reports.salesforceRunReportTool;
   Reports.salesforceRunReportAsyncTool;
   Reports.salesforceGetReportInstanceTool;
   Reports.salesforceListReportInstancesTool;
   Reports.salesforceDeleteReportInstanceTool;
   Reports.salesforceRunReportWithFiltersTool;
   Reports.salesforceCreateReportTool;
   Reports.salesforceUpdateReportTool;
   Reports.salesforceDeleteReportTool].

Definition dashboardTools : list ToolConfig :=
  [Dashboards.salesforceListDashboardsTool;
   Dashboards.salesforceGetDashboardTool;
   Dashboards.salesforceRefreshDashboardTool;
   Dashboards.salesforceCloneDashboardTool;
   Dashboards.salesforceDeleteDashboardTool;
   Dashboards.salesforceGetDashboardComponentTool].

(** ** Vocabulary of the statements *)

Definition no_slash (s : string) : Prop :=
  forallb (fun c => negb (c =? "/")%char) (chars s) = true.

(** [s] begins with the https origin [o]: the scheme, a host of at least one
    character none of which is a slash, and then the end of the string or a
    slash. *)
Definition begins_with_origin (s o : string) : Prop :=
  exists host rest,
    s = "https://" ++ host ++ rest /\
    host <> "" /\ no_slash host /\
    (rest = "" \/ exists r, rest = String "/" r) /\
    o = "https://" ++ host.

(** The caller gave no instance URL: the parameter is [undefined] or the
    empty string. *)
Definition no_explicit_url (instanceUrl : option string) : Prop :=
  instanceUrl = None \/ instanceUrl = Some "".

(** The tools that read fields of the body of a 2xx response ([data.id],
    [data.status], [data.requestDate]). *)
Definition fieldReaders : list ToolConfig :=
  [Reports.salesforceRunReportAsyncTool;
   Reports.salesforceCreateReportTool;
   Dashboards.salesforceCloneDashboardTool].

(** The status of the response is 2xx. *)
Definition is2xx (r : Response) : Prop := (200 <= status r <= 299)%Z.

Definition nullish (v : value) : bool :=
  match v with
  | VUndefined | VNull => true
  | _ => false
  end.

(** [v.k] where reading a field of [null] or [undefined] gives
    [undefined]. *)
Definition field (v : value) (k : string) : value :=
  match getProp v k with
  | Return x => x
  | Throw _ => VUndefined
  end.

Fixpoint first_truthy (candidates : list value) (otherwise : value) : value :=
  match candidates with
  | [] => otherwise
  | v :: rest => if truthy v then v else first_truthy rest otherwise
  end.

(** The message of a failed request, in the order of priority: the
    [message] of the first element of the body, the [message] of the body,
    the fixed text of the tool; a candidate counts when it is truthy. *)
Definition priority_message (body : value) (fallback : string) : value :=
  first_truthy [field (field body "0") "message"; field body "message"]
               (VStr fallback).

(** Where a field of a tool's output comes from: an input of the call,
    echoed; the response payload, whole; one field of the payload; the
    constant [true]; the object [{operation: <name>}]; the name of the
    operation. *)
Inductive Source : Type :=
| Input (read : Params -> option string)
| Payload
| PayloadField (key : string)
| Flag
| OperationMetadata
| OperationName.

(** The fields of the output of each operation, in the order of the object
    literal, and where each comes from. *)
Definition outputFields : list (string * list (string * Source)) :=
  [("list_reports",
    [("reports", Payload);
     ("metadata", OperationMetadata); ("success", Flag)]);
   ("get_report_metadata",
    [("reportId", Input reportId); ("metadata", Payload);
     ("operation", OperationName); ("success", Flag)]);
   ("run_report",
    [("reportId", Input reportId); ("reportData", Payload);
     ("metadata", OperationMetadata); ("success", Flag)]);
   ("run_report_async",
    [("reportId", Input reportId); ("instanceId", PayloadField "id");
     ("status", PayloadField "status");
     ("requestDate", PayloadField "requestDate");
     ("metadata", OperationMetadata); ("success", Flag)]);
   ("get_report_instance",
    [("reportId", Input reportId); ("instanceId", Input instanceId);
     ("reportData", Payload);
     ("metadata", OperationMetadata); ("success", Flag)]);
   ("list_report_instances",
    [("reportId", Input reportId); ("instances", Payload);
     ("metadata", OperationMetadata); ("success", Flag)]);
   ("delete_report_instance",
    [("reportId", Input reportId); ("instanceId", Input instanceId);
     ("deleted", Flag); ("metadata", OperationMetadata)]);
   ("run_report_with_filters",
    [("reportId", Input reportId); ("reportData", Payload);
     ("metadata", OperationMetadata); ("success", Flag)]);
   ("create_report",
    [("reportId", PayloadField "id"); ("report", Payload);
     ("created", Flag);
     ("metadata", OperationMetadata); ("success", Flag)]);
   ("update_report",
    [("reportId", Input reportId); ("report", Payload); ("updated", Flag);
     ("metadata", OperationMetadata); ("success", Flag)]);
   ("delete_report",
    [("reportId", Input reportId); ("deleted", Flag);
     ("metadata", OperationMetadata)]);
   ("list_dashboards",
    [("dashboards", Payload);
     ("metadata", OperationMetadata); ("success", Flag)]);
   ("get_dashboard",
    [("dashboardId", Input dashboardId); ("dashboard", Payload);
     ("metadata", OperationMetadata); ("success", Flag)]);
   ("refresh_dashboard",
    [("dashboardId", Input dashboardId); ("dashboardData", Payload);
     ("metadata", OperationMetadata); ("success", Flag)]);
   ("clone_dashboard",
    [("sourceDashboardId", Input dashboardId);
     ("newDashboardId", PayloadField "id"); ("name", Input name);
     ("dashboard", Payload);
     ("metadata", OperationMetadata); ("success", Flag)]);
   ("delete_dashboard",
    [("dashboardId", Input dashboardId); ("deleted", Flag);
     ("metadata", OperationMetadata)]);
   ("get_dashboard_component",
    [("dashboardId", Input dashboardId); ("componentId", Input componentId);
     ("componentData", Payload);
     ("metadata", OperationMetadata); ("success", Flag)])].

Fixpoint fieldsOf (operation : string)
  (table : list (string * list (string * Source)))
  : option (list (string * Source)) :=
  match table with
  | [] => None
  | (o, fields) :: rest =>
      if o =? operation then Some fields else fieldsOf operation rest
  end.

(** The value of a field of the output, given the operation, the inputs
    and the response payload. *)
Definition fieldValue (operation : string) (p : Params) (payload : value)
  (source : Source) : value :=
  match source with
  | Input read => opt_value (read p)
  | Payload => payload
  | PayloadField key => field payload key
  | Flag => VBool true
  | OperationMetadata => VObj [("operation", VStr operation)]
  | OperationName => VStr operation
  end.

Definition outputOf (operation : string) (p : Params) (payload : value)
  (fields : list (string * Source)) : obj :=
  map (fun kf => (fst kf, fieldValue operation p payload (snd kf))) fields.

(** [s] ends with [suffix]. *)
Fixpoint starts_with (p l : list ascii) : bool :=
  match p, l with
  | [], _ => true
  | a :: p', b :: l' => (a =? b)%char && starts_with p' l'
  | _ :: _, [] => false
  end.

Definition ends_with (suffix s : string) : bool :=
  starts_with (rev (chars suffix)) (rev (chars s)).

(** The ids of the fields of the block ([subBlocks]), in order. *)
Definition fieldIds : list string :=
  ["operation"; "credential"; "fields"; "limit"; "orderBy"; "accountId";
   "name"; "type"; "industry"; "phone"; "website"; "contactId"; "lastName";
   "firstName"; "email"; "title"; "leadId"; "company"; "status";
   "leadSource"; "opportunityId"; "stageName"; "closeDate"; "amount";
   "probability"; "caseId"; "subject"; "priority"; "origin"; "taskId";
   "activityDate"; "whoId"; "whatId"; "reportId"; "instanceId";
   "includeDetails"; "dashboardId"; "componentId"; "folderId";
   "description"; "reportMetadata"].

Import SalesforceBlock.

(** A key that names a field: it is not an array index, which JavaScript
    would list before the other keys, and not [__proto__]. *)
Definition field_key (k : string) : bool :=
  match array_index k with
  | Some _ => false
  | None => negb (k =? "__proto__")
  end.

(** A parameter bag: an object keyed by field names, each key once. *)
Definition ParameterBag (bag : obj) : Prop :=
  NoDup (map fst bag) /\ forallb field_key (map fst bag) = true.

(** The entries that the clean-up keeps, besides [credential]. *)
Definition kept (kv : string * value) : bool :=
  negb (fst kv =? "credential") && negb (fst kv =? "operation") &&
  match snd kv with
  | VUndefined => false
  | VNull => false
  | VStr s => negb (s =? "")
  | _ => true
  end.

(** Tokens whose payloads are the JSON texts
    [{"sub":"https://acme.my.salesforce.com/id/xyz"}],
    [{"sub":"https://login.salesforce.com/id/xyz"}],
    [{"profile":"https://login.salesforce.com/id/abc"}], and a token whose
    payload is not base64. *)
Definition token_sub_acme : string :=
  "e30.eyJzdWIiOiJodHRwczovL2FjbWUubXkuc2FsZXNmb3JjZS5jb20vaWQveHl6In0.sig".
Definition token_sub_login : string :=
  "e30.eyJzdWIiOiJodHRwczovL2xvZ2luLnNhbGVzZm9yY2UuY29tL2lkL3h5eiJ9.sig".
Definition token_profile_login : string :=
  "e30.eyJwcm9maWxlIjoiaHR0cHM6Ly9sb2dpbi5zYWxlc2ZvcmNlLmNvbS9pZC9hYmMifQ.sig".
Definition token_malformed : string := "e30.!!!.sig".

(** Sample inputs of the tools. *)
Definition noParams : Params := {|
  accessToken := Some "00D-token";
  idToken := None;
  instanceUrl := Some "https://acme.my.salesforce.com";
  reportId := Some "00O5e000001";
  includeDetails := None;
  instanceId := None;
  reportMetadata := None;
  dashboardId := None;
  componentId := None;
  name := None;
  folderId := None
|}.

Definition withIncludeDetails (s : string) : Params := {|
  accessToken := accessToken noParams;
  idToken := idToken noParams;
  instanceUrl := instanceUrl noParams;
  reportId := reportId noParams;
  includeDetails := Some s;
  instanceId := instanceId noParams;
  reportMetadata := reportMetadata noParams;
  dashboardId := dashboardId noParams;
  componentId := componentId noParams;
  name := name noParams;
  folderId := folderId noParams
|}.

(** Parameters from which no instance URL can be had: there is neither an
    instance URL nor a token. *)
Definition noInstance : Params := {|
  accessToken := accessToken noParams;
  idToken := None;
  instanceUrl := None;
  reportId := reportId noParams;
  includeDetails := includeDetails noParams;
  instanceId := instanceId noParams;
  reportMetadata := reportMetadata noParams;
  dashboardId := dashboardId noParams;
  componentId := componentId noParams;
  name := name noParams;
  folderId := folderId noParams
|}.

(** Sample responses: a 200 response whose body is [{"name":"Pipeline"}],
    one whose body is [null], a 204 response without a body, a 404 response
    whose body is an array of one error object, one whose error object has
    an empty message, one whose body is
    [null], and a 500 response whose body is not JSON. *)
Definition response200 : Response := {|
  status := 200;
  json := Return (VObj [("name", VStr "Pipeline")])
|}.

Definition response200_null : Response := {|
  status := 200;
  json := Return VNull
|}.

Definition response204 : Response := {|
  status := 204;
  json := Throw (SyntaxError "Unexpected end of JSON input")
|}.





(** One turn of the [forEach] loop of [tools.config.params]. *)
Definition step (cleanParams : obj) (kv : string * value) : obj :=
  if is_set (snd kv) then obj_assign cleanParams (fst kv) (snd kv)
  else cleanParams.

(** The keys of [idx] are array indices, at least [lo] and strictly
    increasing. *)
Fixpoint ascending (lo : N) (idx : obj) : Prop :=
  match idx with
  | [] => True
  | (k, _) :: rest =>
      exists i, array_index k = Some i /\ (lo <= i)%N /\ ascending (i + 1) rest
  end.

(** The keys of [pre] are array indices below [hi]. *)
Definition below (hi : N) (pre : obj) : Prop :=
  Forall (fun kv => exists j, array_index (fst kv) = Some j /\ (j < hi)%N) pre.

Definition other_field (k : string) : bool :=
  field_key k && negb (k =? "credential") && negb (k =? "operation").

Definition all_set (o : obj) : bool :=
  forallb (fun kv => is_set (snd kv)) o.

(** The shape of a cleaned bag: array indices in ascending order, then
    [credential] with the value [c], then field names, each once; every
    value but that of [credential] is set. *)
Definition Clean (c : value) (o : obj) : Prop :=
  exists idx strs,
    o = (idx ++ ("credential", c) :: strs)%list /\
    ascending 0 idx /\
    forallb other_field (map fst strs) = true /\
    NoDup (map fst strs) /\
    all_set idx = true /\ all_set strs = true.

(** ** Further vocabulary *)

Definition no_dot (s : string) : Prop :=
  forallb (fun c => negb (c =? ".")%char) (chars s) = true.

(** [u] is an https origin: the scheme and a host without slash. *)
Definition is_origin (u : string) : Prop :=
  exists host, u = "https://" ++ host /\ host <> "" /\ no_slash host.

(** A token whose payload is the JSON text
    [{"profile":"http://x","sub":"https://acme.my.salesforce.com/id"}]. *)
Definition token_profile_http : string :=
  "e30.eyJwcm9maWxlIjoiaHR0cDovL3giLCJzdWIiOiJodHRwczovL2FjbWUubXkuc2FsZXNmb3JjZS5jb20vaWQifQ.sig".

(** The ids of the sub-blocks whose condition lists the operation. *)
Definition conditionedOn (operation : string) : list string :=
  map sb_id
      (filter (fun sb =>
                 match sb_condition sb with
                 | Some ops => existsb (String.eqb operation) ops
                 | None => false
                 end)
              subBlocks).

Fixpoint paramsOf (toolId : string) (table : list (string * list ParamSpec))
  : list ParamSpec :=
  match table with
  | [] => []
  | (i, ps) :: rest => if i =? toolId then ps else paramsOf toolId rest
  end.

Definition is_user_only (p : ParamSpec) : bool :=
  match visibility p with
  | UserOnly => true
  | Hidden => false
  end.

(** The parameters that the user fills in for a tool. *)
Definition userParams (toolId : string) : list ParamSpec :=
  filter is_user_only (paramsOf toolId toolParams).

(** Two lists have the same members. *)
Definition same_members (a b : list string) : Prop :=
  forall x, In x a <-> In x b.

(** The operations of the reports and of the dashboards. *)
Definition analyticsOperations : list string :=
  ["list_reports"; "get_report_metadata"; "run_report"; "run_report_async";
   "get_report_instance"; "list_report_instances"; "delete_report_instance";
   "run_report_with_filters"; "create_report"; "update_report";
   "delete_report";
   "list_dashboards"; "get_dashboard"; "refresh_dashboard"; "clone_dashboard";
   "delete_dashboard"; "get_dashboard_component"].

(** What the clean-up gives for a key, read off the bag. *)
Definition cleaned (bag : obj) (k : string) : option value :=
  if k =? "credential" then Some (own bag "credential")
  else if (k =? "operation") || (k =? "__proto__") then None
  else match lookup k bag with
       | Some v => if is_set v then Some v else None
       | None => None
       end.

(** The escape of the character code [c] is [%] and the two hexadecimal
    digits of [c]. *)
Definition two_digit_escape (c : N) : Prop :=
  exists h1 h2 d1 d2,
    percentEscape c = String "%" (String h1 (String h2 "")) /\
    hex_value h1 = Some d1 /\ hex_value h2 = Some d2 /\
    c = (d1 * 16 + d2)%N.

Definition two_digit_escapeb (c : N) : bool :=
  match chars (percentEscape c) with
  | [p; h1; h2] =>
      (p =? "%")%char &&
      match hex_value h1, hex_value h2 with
      | Some d1, Some d2 => (c =? d1 * 16 + d2)%N
      | _, _ => false
      end
  | _ => false
  end.

(** The URL of the tool [t] is what the resolver gives, followed by the
    path of the analytics API under [family]; when the resolver fails, so
    does the URL builder, with the same error; the log is the resolver's. *)
Definition follows_resolver (logger family : string) (t : ToolConfig)
  (p : Params) : Prop :=
  let resolved := getInstanceUrl logger (idToken p) (instanceUrl p) in
  snd (url t p) = snd resolved /\
  match fst resolved with
  | Return base =>
      exists rest,
        fst (url t p)
        = Return (base ++ "/services/data/v59.0/analytics/" ++ family ++ rest)
  | Throw e => fst (url t p) = Throw e
  end.

(** Two parameter records agree on the parameters that the user fills
    in and the response transformers read. *)
Definition same_user_input (p q : Params) : Prop :=
  reportId p = reportId q /\ instanceId p = instanceId q /\
  dashboardId p = dashboardId q /\ componentId p = componentId q /\
  name p = name q.

(** Sample parameters with other credentials than [noParams]. *)
Definition otherCredentials : Params := {|
  accessToken := Some "another-token";
  idToken := Some token_sub_acme;
  instanceUrl := None;
  reportId := reportId noParams;
  includeDetails := Some "false";
  instanceId := instanceId noParams;
  reportMetadata := Some "{}";
  dashboardId := dashboardId noParams;
  componentId := componentId noParams;
  name := name noParams;
  folderId := Some "00l"
|}.



Definition inclb (a b : list string) : bool :=
  forallb (fun x => existsb (String.eqb x) b) a.

(** The sub-block [sb] is conditioned on the operation. *)
Definition conditioned (operation : string) (sb : SubBlock) : Prop :=
  exists ops, sb_condition sb = Some ops /\ In operation ops.

(** For the operation, the block and the tool agree: the sub-blocks
    conditioned on the operation are the parameters that the user fills in
    for the tool, and a sub-block marked required is a required parameter. *)
Definition block_matches_tool (operation : string) : Prop :=
  same_members (conditionedOn operation)
               (map param (userParams ("salesforce_" ++ operation))) /\
  forall sb, In sb subBlocks -> conditioned operation sb ->
             sb_required sb = true ->
             exists ps, In ps (userParams ("salesforce_" ++ operation)) /\
                        param ps = sb_id sb /\ required ps = true.

Definition block_matches_toolb (operation : string) : bool :=
  let shown := conditionedOn operation in
  let declared := userParams ("salesforce_" ++ operation) in
  inclb shown (map param declared) && inclb (map param declared) shown &&
  forallb (fun sb =>
             match sb_condition sb with
             | Some ops =>
                 negb (existsb (String.eqb operation) ops)
                 || negb (sb_required sb)
                 || existsb (fun ps => (param ps =? sb_id sb) && required ps)
                            declared
             | None => true
             end)
          subBlocks.

(** A list of bytes is well-formed UTF-8: it is cut, from the left, into
    well-formed sequences of one to four bytes. *)
Fixpoint utf8_wf (l : list N) : bool :=
  match l with
  | [] => true
  | b0 :: r0 =>
      if valid_utf8_seq [b0] then utf8_wf r0
      else
        match r0 with
        | b1 :: r1 =>
            if valid_utf8_seq [b0; b1] then utf8_wf r1
            else
              match r1 with
              | b2 :: r2 =>
                  if valid_utf8_seq [b0; b1; b2] then utf8_wf r2
                  else
                    match r2 with
                    | b3 :: r3 =>
                        valid_utf8_seq [b0; b1; b2; b3] && utf8_wf r3
                    | [] => false
                    end
              | [] => false
              end
        | [] => false
        end
  end.

(** The character codes of the text [{"name":"José"}], in UTF-8, and the
    same with the last byte of the accented letter missing. *)
Definition payload_utf8 : list N :=
  [123; 34; 110; 97; 109; 101; 34; 58; 34; 74; 111; 115; 195; 169; 34;
   125]%N.

Definition payload_cut : list N :=
  [123; 34; 110; 97; 109; 101; 34; 58; 34; 74; 111; 115; 195; 34; 125]%N.

(** * Properties *)

(** ** The regular expression *)

Lemma take_non_slash_host (host rest : string) :
  no_slash host ->
  rest = "" \/ (exists r, rest = String "/" r) ->
  take_non_slash (host ++ rest) = host.
Proof.
  unfold no_slash. intros Hns Hrest. induction host as [|c host IH]; simpl.
  - destruct Hrest as [-> | [r ->]]; reflexivity.
  - simpl in Hns. apply andb_prop in Hns as [Hc Hns].
    destruct (c =? "/")%char; [discriminate Hc|].
    f_equal. now apply IH.
Qed.

Lemma drop_prefix_app (p s : string) : drop_prefix p (p ++ s) = Some s.
Proof.
  induction p as [|c p IH]; simpl; [reflexivity|].
  now rewrite Ascii.eqb_refl.
Qed.

Lemma drop_prefix_inv (p s r : string) : drop_prefix p s = Some r -> s = p ++ r.
Proof.
  revert s. induction p as [|c p IH]; intros s H; simpl in *.
  - now inversion H.
  - destruct s as [|d s]; [discriminate|].
    destruct (Ascii.eqb_spec c d) as [-> | _]; [|discriminate].
    f_equal. now apply IH.
Qed.

Lemma take_non_slash_split (s : string) :
  exists rest, s = take_non_slash s ++ rest /\
               no_slash (take_non_slash s) /\
               (rest = "" \/ exists r, rest = String "/" r).
Proof.
  unfold no_slash.
  induction s as [|c s (rest & Heq & Hns & Hrest)]; simpl.
  - exists "". repeat split. now left.
  - destruct (Ascii.eqb_spec c "/") as [-> | Hc].
    + exists (String "/" s). repeat split. right. now exists s.
    + exists rest. repeat split; [simpl; now f_equal | | exact Hrest].
      simpl. rewrite Hns. now destruct (Ascii.eqb_spec c "/").
Qed.

Lemma match_origin_iff (s o : string) :
  match_origin s = Some o <-> begins_with_origin s o.
Proof.
  unfold match_origin. split.
  - destruct (drop_prefix "https://" s) as [rest|] eqn:Hp; [|discriminate].
    apply drop_prefix_inv in Hp.
    destruct (String.eqb_spec (take_non_slash rest) "") as [_ | Hne];
      [discriminate|].
    intros [= <-].
    destruct (take_non_slash_split rest) as (tl & Heq & Hns & Htl).
    exists (take_non_slash rest), tl. repeat split; try assumption.
    rewrite Hp. now rewrite <- Heq.
  - intros (host & rest & -> & Hne & Hns & Hrest & ->).
    rewrite drop_prefix_app, take_non_slash_host by assumption.
    destruct (String.eqb_spec host ""); [contradiction | reflexivity].
Qed.

Lemma origin_truthy (s o : string) :
  begins_with_origin s o -> truthy (VStr s) = true.
Proof.
  intros (host & rest & -> & _). reflexivity.
Qed.

(** ** The instance resolver *)

Section Resolver.

Variable logger : string.

Lemma no_explicit_url_falsy (instanceUrl : option string) :
  no_explicit_url instanceUrl -> truthy (opt_value instanceUrl) = false.
Proof. now intros [-> | ->]. Qed.

Lemma nonempty_truthy (s : string) : s <> "" -> truthy (VStr s) = true.
Proof.
  intros H. simpl. now destruct (String.eqb_spec s "").
Qed.

(** What [getInstanceUrl] does once the explicit URL is out of the way and
    the token is present. *)
Lemma getInstanceUrl_token (token : string) (instanceUrl : option string) :
  no_explicit_url instanceUrl ->
  token <> "" ->
  getInstanceUrl logger (Some token) instanceUrl =
  match instanceUrlFromToken token with
  | Return (Some url) => (Return url, [])
  | Return None => (Throw missing_url, [])
  | Throw error =>
      (Throw missing_url,
       [{| log_logger := logger;
           log_message := "Failed to decode Salesforce idToken";
           log_error := error |}])
  end.
Proof.
  intros Hu Ht. unfold getInstanceUrl.
  rewrite (no_explicit_url_falsy _ Hu), (nonempty_truthy _ Ht).
  destruct (instanceUrlFromToken token) as [[url|]|e]; reflexivity.
Qed.

(** C4.  A non-empty explicit instance URL is returned as it is, whatever
    the identity token: present, absent or malformed.  Nothing is logged,
    also for a token whose decoding would fail: the token is not decoded. *)
Theorem explicit_url_wins (token : option string) (url : string) :
  url <> "" ->
  getInstanceUrl logger token (Some url) = (Return url, []).
Proof.
  intros H. unfold getInstanceUrl.
  change (opt_value (Some url)) with (VStr url).
  now rewrite (nonempty_truthy _ H).
Qed.

(** C3.  Without an explicit URL, a token whose payload has a [profile]
    string beginning with an https origin resolves to that origin; the
    login host is not set apart on this path. *)
Theorem profile_origin_returned
  (token : string) (instanceUrl : option string)
  (payload : obj) (profile origin : string) :
  no_explicit_url instanceUrl ->
  decodeIdToken token = Return (VObj payload) ->
  lookup "profile" payload = Some (VStr profile) ->
  begins_with_origin profile origin ->
  getInstanceUrl logger (Some token) instanceUrl = (Return origin, []).
Proof.
  intros Hu Hdec Hp Ho.
  assert (Ht : token <> "") by (intros ->; discriminate Hdec).
  rewrite (getInstanceUrl_token _ _ Hu Ht).
  unfold instanceUrlFromToken. rewrite Hdec.
  cbn [obind getProp]. rewrite Hp, (origin_truthy _ _ Ho).
  cbn [call_match obind].
  apply match_origin_iff in Ho. now rewrite Ho.
Qed.

(** C2.  Without an explicit URL, a token whose payload has no [profile]
    field and a [sub] string beginning with an https origin resolves to that
    origin, unless the origin is the login host: then the resolver fails. *)
Theorem sub_origin_unless_login
  (token : string) (instanceUrl : option string)
  (payload : obj) (sub origin : string) :
  no_explicit_url instanceUrl ->
  decodeIdToken token = Return (VObj payload) ->
  lookup "profile" payload = None ->
  lookup "sub" payload = Some (VStr sub) ->
  begins_with_origin sub origin ->
  (origin <> "https://login.salesforce.com" ->
   getInstanceUrl logger (Some token) instanceUrl = (Return origin, [])) /\
  (origin = "https://login.salesforce.com" ->
   getInstanceUrl logger (Some token) instanceUrl = (Throw missing_url, [])).
Proof.
  intros Hu Hdec Hp Hs Ho.
  assert (Ht : token <> "") by (intros ->; discriminate Hdec).
  rewrite (getInstanceUrl_token _ _ Hu Ht).
  pose proof (origin_truthy _ _ Ho) as Htr.
  unfold instanceUrlFromToken. rewrite Hdec.
  cbn [obind getProp]. rewrite Hp, Hs. cbn [obind truthy].
  cbn [truthy] in Htr. rewrite Htr. cbn [call_match obind].
  apply match_origin_iff in Ho. rewrite Ho. unfold login_host.
  destruct (String.eqb_spec origin "https://login.salesforce.com");
    simpl; split; intros; try contradiction; reflexivity.
Qed.

(** C5, as the code has it.  Without an explicit URL, a token that is
    present and whose payload cannot be decoded makes one call of
    [logger.error], and the resolver then fails with the error whose message
    is ['Salesforce instance URL is required but not provided']. *)
Theorem malformed_token_logged_once
  (token : string) (instanceUrl : option string) (error : exn) :
  no_explicit_url instanceUrl ->
  token <> "" ->
  decodeIdToken token = Throw error ->
  getInstanceUrl logger (Some token) instanceUrl =
  (Throw (JsError
            (VStr "Salesforce instance URL is required but not provided")),
   [{| log_logger := logger;
       log_message := "Failed to decode Salesforce idToken";
       log_error := error |}]).
Proof.
  intros Hu Ht Hdec. rewrite (getInstanceUrl_token _ _ Hu Ht).
  unfold instanceUrlFromToken. now rewrite Hdec.
Qed.

End Resolver.

Lemma explicit_url_wins_witness :
  getInstanceUrl "SalesforceReports" (Some token_malformed)
                 (Some "https://acme.my.salesforce.com")
  = (Return "https://acme.my.salesforce.com", []).
Proof.
  apply (explicit_url_wins "SalesforceReports" (Some token_malformed)
                           "https://acme.my.salesforce.com").
  discriminate.
Defined.

Lemma profile_origin_returned_witness :
  getInstanceUrl "SalesforceDashboards" (Some token_profile_login) None
  = (Return "https://login.salesforce.com", []).
Proof.
  apply (profile_origin_returned "SalesforceDashboards" token_profile_login
           None [("profile", VStr "https://login.salesforce.com/id/abc")]
           "https://login.salesforce.com/id/abc").
  - now left.
  - vm_compute. reflexivity.
  - reflexivity.
  - exists "login.salesforce.com", "/id/abc".
    repeat split; [discriminate | right; now exists "id/abc"].
Defined.

Lemma sub_origin_unless_login_witness :
  getInstanceUrl "SalesforceReports" (Some token_sub_acme) None
  = (Return "https://acme.my.salesforce.com", []) /\
  getInstanceUrl "SalesforceReports" (Some token_sub_login) (Some "")
  = (Throw missing_url, []).
Proof.
  split.
  - apply (sub_origin_unless_login "SalesforceReports" token_sub_acme None
             [("sub", VStr "https://acme.my.salesforce.com/id/xyz")]
             "https://acme.my.salesforce.com/id/xyz"
             "https://acme.my.salesforce.com").
    + now left.
    + vm_compute. reflexivity.
    + reflexivity.
    + reflexivity.
    + exists "acme.my.salesforce.com", "/id/xyz".
      repeat split; [discriminate | right; now exists "id/xyz"].
    + discriminate.
  - apply (sub_origin_unless_login "SalesforceReports" token_sub_login
             (Some "")
             [("sub", VStr "https://login.salesforce.com/id/xyz")]
             "https://login.salesforce.com/id/xyz"
             "https://login.salesforce.com").
    + now right.
    + vm_compute. reflexivity.
    + reflexivity.
    + reflexivity.
    + exists "login.salesforce.com", "/id/xyz".
      repeat split; [discriminate | right; now exists "id/xyz"].
    + reflexivity.
Defined.

Lemma malformed_token_logged_once_witness :
  getInstanceUrl "SalesforceReports" (Some token_malformed) None =
  (Throw (JsError
            (VStr "Salesforce instance URL is required but not provided")),
   [{| log_logger := "SalesforceReports";
       log_message := "Failed to decode Salesforce idToken";
       log_error := InvalidCharacterError |}]).
Proof.
  apply (malformed_token_logged_once "SalesforceReports" token_malformed None
                                     InvalidCharacterError).
  - now left.
  - discriminate.
  - vm_compute. reflexivity.
Defined.

(** C5, against the claim as it is worded: the payload [!!!] is not base64,
    the failure is logged once, and the error raised does not carry the
    message ["instance URL required but not provided"]. *)
Lemma malformed_token_message_differs :
  decodeIdToken token_malformed = Throw InvalidCharacterError /\
  List.length (snd (getInstanceUrl "SalesforceReports"
                      (Some token_malformed) None)) = 1%nat /\
  fst (getInstanceUrl "SalesforceReports" (Some token_malformed) None)
  <> Throw (JsError (VStr "instance URL required but not provided")).
Proof.
  repeat split; try (vm_compute; reflexivity).
  vm_compute. discriminate.
Qed.

(** ** The tools *)

Lemma ok_is2xx (r : Response) : ok r = true <-> is2xx r.
Proof. unfold ok, is2xx. lia. Qed.


Lemma getProp_defined (v : value) (k : string) :
  nullish v = false -> getProp v k = Return (field v k).
Proof.
  unfold field. destruct v; intros H; try discriminate H; simpl;
    try reflexivity.
  destruct (k =? "0"); [reflexivity|]. now destruct (k =? "sub").
Qed.





Lemma priority_message_empty (fallback : string) :
  priority_message (VObj []) fallback = VStr fallback.
Proof. reflexivity. Qed.


(** Case analysis on membership in one of the lists of tools. *)
Ltac each_tool H :=
  simpl in H;
  repeat (destruct H as [H | H]; [injection H as <- <- |]);
  [.. | contradiction H].

(** The tool at hand is one of [fieldReaders]. *)
Ltac field_reader :=
  simpl;
  first [ left; reflexivity
        | right; left; reflexivity
        | right; right; left; reflexivity ].

Ltac unfold_tool :=
  cbn [transformResponse id Reports.salesforceListReportsTool
       Reports.salesforceGetReportMetadataTool
       Reports.salesforceRunReportTool
       Reports.salesforceRunReportAsyncTool
       Reports.salesforceGetReportInstanceTool
       Reports.salesforceListReportInstancesTool
       Reports.salesforceDeleteReportInstanceTool
       Reports.salesforceRunReportWithFiltersTool
       Reports.salesforceCreateReportTool
       Reports.salesforceUpdateReportTool
       Reports.salesforceDeleteReportTool
       Dashboards.salesforceListDashboardsTool
       Dashboards.salesforceGetDashboardTool
       Dashboards.salesforceRefreshDashboardTool
       Dashboards.salesforceCloneDashboardTool
       Dashboards.salesforceDeleteDashboardTool
       Dashboards.salesforceGetDashboardComponentTool].

(** C1, as the code has it.  On a 2xx response every report and dashboard
    tool returns [{success: true, output}], and [output] is made of the
    fields that [outputFields] lists for the operation of the tool, whose id
    is [salesforce_<name>], in that order: an input is echoed as it was
    given, the payload is the parsed body, a field of the payload is read
    off the parsed body.  For every tool but [get_report_metadata] the field
    [metadata] of [output] is [{operation: <name>}]; for
    [get_report_metadata] the field [metadata] is the response payload and
    the name is the field [operation] of [output].  The tools other than
    the delete tools read the body, which has to be JSON, and not [null]
    for the three tools that read fields of it; the delete tools do not read
    the body, and nothing of their output depends on it. *)
Theorem success_envelope :
  (forall t fallback r p data,
      In (t, fallback) readTools ->
      is2xx r -> json r = Return data ->
      (In t fieldReaders -> nullish data = false) ->
      exists operation fields output,
        id t = "salesforce_" ++ operation /\
        fieldsOf operation outputFields = Some fields /\
        transformResponse t r p =
          Return (VObj [("success", VBool true); ("output", VObj output)]) /\
        output = outputOf operation p data fields /\
        (operation <> "get_report_metadata" ->
         lookup "metadata" output
         = Some (VObj [("operation", VStr operation)])) /\
        (operation = "get_report_metadata" ->
         lookup "metadata" output = Some data /\
         lookup "operation" output = Some (VStr operation))) /\
  (forall t fallback r p,
      In (t, fallback) deleteTools ->
      is2xx r ->
      exists operation fields output,
        id t = "salesforce_" ++ operation /\
        fieldsOf operation outputFields = Some fields /\
        transformResponse t r p =
          Return (VObj [("success", VBool true); ("output", VObj output)]) /\
        (forall payload, output = outputOf operation p payload fields) /\
        lookup "metadata" output
        = Some (VObj [("operation", VStr operation)])).
Proof.
  split.
  - intros t fallback r p data Hin Hok Hjson Hnn.
    apply ok_is2xx in Hok.
    each_tool Hin; unfold_tool;
      rewrite Hjson, Hok; cbn [obind negb];
      try (assert (Hd : nullish data = false) by (apply Hnn; field_reader);
           rewrite ?(getProp_defined data _ Hd); cbn [obind]);
      eexists; eexists; eexists;
      (split; [reflexivity |
        split; [reflexivity |
          split; [reflexivity |
            split; [reflexivity |
              split; [intros Hne; try reflexivity; now contradiction Hne
                     | intros Heq; try discriminate Heq; now split]]]]]).
  - intros t fallback r p Hin Hok.
    apply ok_is2xx in Hok.
    each_tool Hin; unfold_tool;
      rewrite Hok; cbn [negb];
      eexists; eexists; eexists;
      (split; [reflexivity |
        split; [reflexivity |
          split; [reflexivity |
            split; [intros payload; reflexivity | reflexivity]]]]).
Qed.

Lemma success_envelope_witness :
  transformResponse Reports.salesforceCreateReportTool response200 noParams
  = Return (VObj [("success", VBool true);
                  ("output",
                   VObj [("reportId", VUndefined);
                         ("report", VObj [("name", VStr "Pipeline")]);
                         ("created", VBool true);
                         ("metadata",
                          VObj [("operation", VStr "create_report")]);
                         ("success", VBool true)])]).
Proof.
  destruct (proj1 success_envelope Reports.salesforceCreateReportTool
              "Failed to create report" response200 noParams
              (VObj [("name", VStr "Pipeline")]))
    as (operation & fields & output & Hid & Hfields & Hres & Hout & _).
  - simpl. tauto.
  - unfold is2xx. simpl. lia.
  - reflexivity.
  - reflexivity.
  - injection Hid as <-. injection Hfields as <-.
    rewrite Hres, Hout. reflexivity.
Defined.

(** C1, against the claim as it is worded.  For [get_report_metadata] the
    field [metadata] of the output is the response payload, not
    [{operation: 'get_report_metadata'}].  Besides, a 2xx response without
    a JSON body gives [update_report] no result at all, and neither does
    the body [null] to [run_report_async]. *)
Lemma get_report_metadata_holds_payload :
  (is2xx response200 /\
   ~ exists output,
       transformResponse Reports.salesforceGetReportMetadataTool
                         response200 noParams
       = Return (VObj [("success", VBool true); ("output", VObj output)]) /\
       lookup "metadata" output
       = Some (VObj [("operation", VStr "get_report_metadata")])) /\
  (is2xx response204 /\
   transformResponse Reports.salesforceUpdateReportTool response204 noParams
   = Throw (SyntaxError "Unexpected end of JSON input")) /\
  (is2xx response200_null /\
   transformResponse Reports.salesforceRunReportAsyncTool response200_null
                     noParams
   = Throw (TypeError "Cannot read properties of null")).
Proof.
  repeat split; try (unfold is2xx; simpl; lia).
  intros (output & Hres & Hmeta).
  vm_compute in Hres. injection Hres as <-.
  vm_compute in Hmeta. discriminate Hmeta.
Qed.




Lemma append_assoc (a b c : string) : (a ++ b) ++ c = a ++ b ++ c.
Proof.
  induction a as [|x a IH]; simpl; [reflexivity | now f_equal].
Qed.

Lemma chars_app (a b : string) : chars (a ++ b) = (chars a ++ chars b)%list.
Proof.
  induction a as [|c a IH]; simpl; [reflexivity | now f_equal].
Qed.

(** What a string ends with is decided by its last part when that part is
    at least as long as the suffix asked for. *)
Lemma ends_with_app (suffix a b : string) :
  ends_with suffix (a ++ b)
  = starts_with (rev (chars suffix)) (rev (chars b) ++ rev (chars a))%list.
Proof.
  unfold ends_with. now rewrite chars_app, rev_app_distr.
Qed.

(** C10.  [run_report] and [run_report_async] build a URL whenever the
    resolver gives an instance URL, and in that URL the query parameter
    [includeDetails] is [false] exactly when the input [includeDetails] is
    the string ['false']; whatever else it is, absent included, the
    parameter is [true].  When the resolver fails there is no URL: the
    builder fails with the resolver's error. *)
Theorem includeDetails_false_only (t : ToolConfig) (p : Params) :
  In t [Reports.salesforceRunReportTool; Reports.salesforceRunReportAsyncTool] ->
  match fst (getInstanceUrl Reports.logger (idToken p) (instanceUrl p)) with
  | Return base =>
      exists u,
        fst (url t p) = Return u /\
        (ends_with "?includeDetails=false" u = true
         <-> includeDetails p = Some "false") /\
        (ends_with "?includeDetails=true" u = true
         <-> includeDetails p <> Some "false")
  | Throw e => fst (url t p) = Throw e
  end.
Proof.
  intros Hin.
  assert (Hquery : forall path : string,
             let flag :=
               if negb (match includeDetails p with
                        | Some s => s =? "false"
                        | None => false
                        end)
               then "true" else "false" in
             (ends_with "?includeDetails=false"
                        (path ++ "?includeDetails=" ++ flag) = true
              <-> includeDetails p = Some "false") /\
             (ends_with "?includeDetails=true"
                        (path ++ "?includeDetails=" ++ flag) = true
              <-> includeDetails p <> Some "false")).
  { intros path flag. subst flag. rewrite !ends_with_app.
    destruct (includeDetails p) as [s|];
      [destruct (String.eqb_spec s "false")|];
      cbn; (split; split; intros H; try reflexivity; try discriminate H;
            congruence). }
  simpl in Hin. destruct Hin as [<- | [<- | []]];
    cbn [url Reports.salesforceRunReportTool
         Reports.salesforceRunReportAsyncTool withInstanceUrl fst];
    (destruct (fst (getInstanceUrl _ _ _)) as [base|e]; cbn [obind];
     [|reflexivity]);
    eexists; (split; [reflexivity|]).
  - rewrite <- 2!append_assoc. exact (Hquery _).
  - change "/instances?includeDetails=" with ("/instances" ++ "?includeDetails=").
    rewrite (append_assoc "/instances"), <- 3!append_assoc.
    exact (Hquery _).
Qed.

Lemma includeDetails_false_only_witness :
  (exists u,
      fst (url Reports.salesforceRunReportTool (withIncludeDetails "False"))
      = Return u /\
      ends_with "?includeDetails=true" u = true) /\
  (exists u,
      fst (url Reports.salesforceRunReportAsyncTool
               (withIncludeDetails "false"))
      = Return u /\
      ends_with "?includeDetails=false" u = true) /\
  fst (url Reports.salesforceRunReportAsyncTool noInstance)
  = Throw missing_url.
Proof.
  split; [|split].
  - destruct (includeDetails_false_only Reports.salesforceRunReportTool
                (withIncludeDetails "False"))
      as (u & Hurl & _ & Htrue).
    + simpl. tauto.
    + exists u. split; [exact Hurl|]. apply Htrue. discriminate.
  - destruct (includeDetails_false_only Reports.salesforceRunReportAsyncTool
                (withIncludeDetails "false"))
      as (u & Hurl & Hfalse & _).
    + simpl. tauto.
    + exists u. split; [exact Hurl|]. now apply Hfalse.
  - apply (includeDetails_false_only Reports.salesforceRunReportAsyncTool
             noInstance).
    simpl. tauto.
Defined.

(** ** The block: dispatch and clean-up *)

Lemma switch_default (x : string) (clauses : list (string * string))
  (default : exn) :
  ~ In x (map fst clauses) -> switch x clauses default = Throw default.
Proof.
  induction clauses as [|[label result] rest IH]; simpl; intros H.
  - reflexivity.
  - destruct (String.eqb_spec x label) as [-> | _].
    + exfalso. apply H. now left.
    + apply IH. intros Hin. apply H. now right.
Qed.

(** C7.  Each id of the operation dropdown is dispatched to its tool, whose
    id is [salesforce_] followed by the operation; [update_lead] goes to
    [salesforce_update_lead].  Any other string makes the switch throw
    ['Unknown operation: ...']: there is no tool by default. *)
Theorem tool_dispatch :
  Forall (fun operation => tool operation = Return ("salesforce_" ++ operation))
         operationIds /\
  tool "update_lead" = Return "salesforce_update_lead" /\
  (forall s, ~ In s operationIds ->
             tool s = Throw (JsError (VStr ("Unknown operation: " ++ s)))).
Proof.
  split; [|split].
  - unfold operationIds. repeat (constructor; [reflexivity|]). constructor.
  - reflexivity.
  - intros s H. unfold tool. apply switch_default. exact H.
Qed.

Lemma tool_dispatch_witness :
  tool "bogus" = Throw (JsError (VStr "Unknown operation: bogus")).
Proof.
  apply (proj2 (proj2 tool_dispatch) "bogus").
  unfold operationIds. simpl.
  intros H. repeat (destruct H as [H | H]; [discriminate H|]). exact H.
Defined.

(** *** The clean-up of the parameter bag *)

Lemma params_fold (bag : obj) :
  params bag
  = fold_left step (rest_of bag) [("credential", own bag "credential")].
Proof. reflexivity. Qed.

Lemma lookup_None (k : string) (o : obj) :
  lookup k o = None <-> ~ In k (map fst o).
Proof.
  induction o as [|[k' v] o IH]; simpl.
  - tauto.
  - destruct (String.eqb_spec k' k) as [-> | Hne].
    + split; [discriminate | intros H; exfalso; apply H; now left].
    + rewrite IH. tauto.
Qed.

Lemma has_key_false (k : string) (o : obj) :
  ~ In k (map fst o) -> has_key k o = false.
Proof.
  intros H. unfold has_key. apply lookup_None in H. now rewrite H.
Qed.

Lemma has_key_true (k : string) (o : obj) :
  In k (map fst o) -> has_key k o = true.
Proof.
  intros H. unfold has_key. destruct (lookup k o) eqn:E; [reflexivity|].
  now apply lookup_None in E.
Qed.

Lemma field_key_spec (k : string) :
  field_key k = true <-> array_index k = None /\ k <> "__proto__".
Proof.
  unfold field_key. destruct (array_index k).
  - split; [discriminate | intros [H _]; discriminate H].
  - destruct (String.eqb_spec k "__proto__"); simpl; split;
      intros; try discriminate; tauto.
Qed.

(** A field name that the object does not have yet is added at its end. *)
Lemma obj_assign_new_field (o : obj) (k : string) (v : value) :
  field_key k = true -> ~ In k (map fst o) ->
  obj_assign o k v = (o ++ [(k, v)])%list.
Proof.
  intros Hk Hnew. apply field_key_spec in Hk as [Hidx Hproto].
  unfold obj_assign, obj_set.
  destruct (String.eqb_spec k "__proto__"); [contradiction|].
  now rewrite (has_key_false _ _ Hnew), Hidx.
Qed.

(** The loop over entries with fresh field names appends those that are
    set, in their order. *)
Lemma fold_step_fields (l acc : obj) :
  forallb field_key (map fst l) = true ->
  NoDup (map fst l) ->
  (forall k, In k (map fst l) -> ~ In k (map fst acc)) ->
  fold_left step l acc
  = (acc ++ filter (fun kv => is_set (snd kv)) l)%list.
Proof.
  revert acc. induction l as [|[k v] l IH]; intros acc Hf Hnd Hfresh; simpl.
  - now rewrite app_nil_r.
  - simpl in Hf. apply andb_prop in Hf as [Hk Hf].
    inversion Hnd as [|? ? Hk_notin Hnd']; subst.
    unfold step at 2. cbn [fst snd].
    destruct (is_set v).
    + rewrite obj_assign_new_field;
        [| exact Hk | apply Hfresh; now left].
      rewrite IH; [| exact Hf | exact Hnd' |].
      * now rewrite <- app_assoc.
      * intros k' Hin. rewrite map_app, in_app_iff. simpl.
        intros [H | [-> | []]]; [|contradiction].
        revert H. apply Hfresh. now right.
    + apply IH; [exact Hf | exact Hnd' |].
      intros k' Hin. apply Hfresh. now right.
Qed.

Lemma filter_filter {A} (f g : A -> bool) (l : list A) :
  filter f (filter g l) = filter (fun x => g x && f x) l.
Proof.
  induction l as [|x l IH]; simpl; [reflexivity|].
  destruct (g x); simpl; [destruct (f x)|]; now rewrite IH.
Qed.

Lemma NoDup_map_filter {A B} (f : A -> B) (g : A -> bool) (l : list A) :
  NoDup (map f l) -> NoDup (map f (filter g l)).
Proof.
  induction l as [|x l IH]; simpl; intros H; [constructor|].
  inversion H as [|? ? Hx Hl]; subst.
  destruct (g x); simpl; [constructor|]; auto.
  intros Hin. apply Hx. apply in_map_iff in Hin as (y & Hy & Hin).
  apply filter_In in Hin as [Hin _]. apply in_map_iff. now exists y.
Qed.

Lemma forallb_map_filter {A B} (p : B -> bool) (f : A -> B) (g : A -> bool)
  (l : list A) :
  forallb p (map f l) = true -> forallb p (map f (filter g l)) = true.
Proof.
  induction l as [|x l IH]; simpl; intros H; [reflexivity|].
  apply andb_prop in H as [Hx Hl].
  destruct (g x); simpl; [rewrite Hx|]; auto.
Qed.

Lemma kept_rest_set (bag : obj) :
  filter (fun kv => is_set (snd kv)) (rest_of bag) = filter kept bag.
Proof.
  unfold rest_of. rewrite filter_filter. apply filter_ext.
  intros [k v]. unfold kept, is_set. cbn [fst snd].
  now destruct (k =? "credential"), (k =? "operation").
Qed.

(** C6.  On a parameter bag the result's first key is [credential], with
    the value the bag has for it ([undefined] when it has none); after it
    come exactly the entries of the bag, other than [credential] and
    [operation], whose value is not [undefined], [null] or the empty
    string, unchanged and in the order of the bag; [operation] is not a key
    of the result. *)
Theorem params_keeps_set_fields (bag : obj) :
  ParameterBag bag ->
  params bag = ("credential", own bag "credential") :: filter kept bag /\
  lookup "operation" (params bag) = None.
Proof.
  intros [Hnd Hf].
  assert (Heq : params bag
                = ("credential", own bag "credential") :: filter kept bag).
  { rewrite params_fold, fold_step_fields.
    - now rewrite kept_rest_set.
    - now apply forallb_map_filter.
    - now apply NoDup_map_filter.
    - intros k Hin [<- | []].
      apply in_map_iff in Hin as ([k v] & Hk & Hin). cbn [fst] in Hk. subst k.
      apply filter_In in Hin as [_ Hin]. cbn [fst] in Hin.
      discriminate Hin. }
  split; [exact Heq|].
  rewrite Heq. apply lookup_None. simpl. intros [H | H]; [discriminate H|].
  apply in_map_iff in H as ([k v] & Hk & Hin). cbn [fst] in Hk. subst k.
  apply filter_In in Hin as [_ Hin]. unfold kept in Hin. cbn [fst] in Hin.
  discriminate Hin.
Qed.

Lemma params_keeps_set_fields_witness :
  params [("credential", VStr "c1"); ("operation", VStr "get_accounts");
          ("accountId", VStr ""); ("limit", VStr "50")]
  = [("credential", VStr "c1"); ("limit", VStr "50")].
Proof.
  apply (params_keeps_set_fields
           [("credential", VStr "c1"); ("operation", VStr "get_accounts");
            ("accountId", VStr ""); ("limit", VStr "50")]).
  split.
  - repeat constructor; simpl; intuition discriminate.
  - reflexivity.
Defined.

(** The ids of the block's fields are field names in this sense, each
    once. *)
Lemma fieldIds_are_field_keys :
  forallb field_key fieldIds = true /\ NoDup fieldIds.
Proof.
  split; [reflexivity|].
  unfold fieldIds.
  repeat (constructor;
          [simpl; intros H;
           repeat (destruct H as [H | H]; [discriminate H|]); exact H|]).
  constructor.
Qed.

(** *** Array indices are canonical numerals *)

Lemma is_digit_range (c : ascii) :
  is_digit c = true -> (48 <= N_of_ascii c <= 57)%N.
Proof.
  unfold is_digit. intros H. apply andb_prop in H as [H1 H2].
  apply N.leb_le in H1, H2. now split.
Qed.

Lemma digit_char_inj (c1 c2 : ascii) :
  is_digit c1 = true -> is_digit c2 = true ->
  (N_of_ascii c1 - 48 = N_of_ascii c2 - 48)%N -> c1 = c2.
Proof.
  intros H1 H2 H. apply is_digit_range in H1, H2.
  rewrite <- (ascii_N_embedding c1), <- (ascii_N_embedding c2).
  assert (N_of_ascii c1 = N_of_ascii c2) as -> by lia. reflexivity.
Qed.

Lemma decimal_value_bounds (s : string) (acc n : N) :
  decimal_value acc s = Some n ->
  (acc * 10 ^ N.of_nat (String.length s) <= n
   < (acc + 1) * 10 ^ N.of_nat (String.length s))%N.
Proof.
  revert acc. induction s as [|c s IH]; intros acc H.
  - simpl in *. injection H as <-. lia.
  - cbn [decimal_value] in H.
    destruct (is_digit c) eqn:Hc; [|discriminate].
    apply IH in H. apply is_digit_range in Hc.
    cbn [String.length]. rewrite Nat2N.inj_succ, N.pow_succ_r'.
    nia.
Qed.

Lemma decimal_value_inj (s1 s2 : string) (a1 a2 n : N) :
  String.length s1 = String.length s2 ->
  decimal_value a1 s1 = Some n -> decimal_value a2 s2 = Some n ->
  a1 = a2 /\ s1 = s2.
Proof.
  revert s2 a1 a2.
  induction s1 as [|c1 s1 IH]; intros [|c2 s2] a1 a2 Hlen H1 H2;
    try discriminate Hlen.
  - simpl in *. split; congruence.
  - cbn [decimal_value] in H1, H2.
    destruct (is_digit c1) eqn:Hc1; [|discriminate].
    destruct (is_digit c2) eqn:Hc2; [|discriminate].
    injection Hlen as Hlen.
    destruct (IH _ _ _ Hlen H1 H2) as [Ha ->].
    assert (Hd1 := is_digit_range _ Hc1). assert (Hd2 := is_digit_range _ Hc2).
    assert (a1 = a2 /\ (N_of_ascii c1 - 48 = N_of_ascii c2 - 48)%N)
      as [-> Hd] by lia.
    split; [reflexivity|]. f_equal. now apply digit_char_inj.
Qed.

(** The length of a canonical numeral is decided by its value. *)
Lemma canonical_length (c : ascii) (rest : string) (n : N) :
  ((c =? "0")%char && negb (rest =? "")) = false ->
  decimal_value 0 (String c rest) = Some n ->
  (n = 0%N /\ rest = "") \/
  (10 ^ N.of_nat (String.length rest) <= n
   < 10 ^ N.of_nat (S (String.length rest)))%N.
Proof.
  intros Hcanon H. cbn [decimal_value] in H.
  destruct (is_digit c) eqn:Hc; [|discriminate].
  assert (Hb := decimal_value_bounds _ _ _ H).
  apply is_digit_range in Hc.
  rewrite Nat2N.inj_succ, N.pow_succ_r'.
  destruct (Ascii.eqb_spec c "0") as [-> | Hne].
  - left. simpl in Hcanon.
    destruct (String.eqb_spec rest "") as [-> | _]; [|discriminate].
    simpl in H. injection H as <-. now split.
  - right. assert (N_of_ascii c <> 48%N).
    { intros E. apply Hne. rewrite <- (ascii_N_embedding c), E. reflexivity. }
    nia.
Qed.

Lemma pow10_length_inj (l1 l2 : nat) (n : N) :
  (10 ^ N.of_nat l1 <= n < 10 ^ N.of_nat (S l1))%N ->
  (10 ^ N.of_nat l2 <= n < 10 ^ N.of_nat (S l2))%N ->
  l1 = l2.
Proof.
  intros H1 H2.
  destruct (Nat.lt_trichotomy l1 l2) as [Hlt | [-> | Hlt]];
    [exfalso | reflexivity | exfalso].
  - assert (10 ^ N.of_nat (S l1) <= 10 ^ N.of_nat l2)%N
      by (apply N.pow_le_mono_r; lia).
    lia.
  - assert (10 ^ N.of_nat (S l2) <= 10 ^ N.of_nat l1)%N
      by (apply N.pow_le_mono_r; lia).
    lia.
Qed.

Lemma array_index_inj (k1 k2 : string) (i : N) :
  array_index k1 = Some i -> array_index k2 = Some i -> k1 = k2.
Proof.
  unfold array_index. intros H1 H2.
  destruct k1 as [|c1 r1]; [discriminate|].
  destruct k2 as [|c2 r2]; [discriminate|].
  destruct ((c1 =? "0")%char && negb (r1 =? "")) eqn:E1; [discriminate|].
  destruct ((c2 =? "0")%char && negb (r2 =? "")) eqn:E2; [discriminate|].
  destruct (decimal_value 0 (String c1 r1)) as [n1|] eqn:D1; [|discriminate].
  destruct (decimal_value 0 (String c2 r2)) as [n2|] eqn:D2; [|discriminate].
  destruct (n1 <? 4294967295)%N; [|discriminate].
  destruct (n2 <? 4294967295)%N; [|discriminate].
  injection H1 as ->. injection H2 as ->.
  assert (Hlen : String.length r1 = String.length r2).
  { destruct (canonical_length _ _ _ E1 D1) as [[Hz1 ->] | Hb1];
      destruct (canonical_length _ _ _ E2 D2) as [[Hz2 ->] | Hb2].
    - reflexivity.
    - exfalso. subst i.
      assert (0 < 10 ^ N.of_nat (String.length r2))%N
        by (apply N.neq_0_lt_0, N.pow_nonzero; lia).
      lia.
    - exfalso. subst i.
      assert (0 < 10 ^ N.of_nat (String.length r1))%N
        by (apply N.neq_0_lt_0, N.pow_nonzero; lia).
      lia.
    - exact (pow10_length_inj _ _ _ Hb1 Hb2). }
  apply (decimal_value_inj (String c1 r1) (String c2 r2) 0 0 i);
    [simpl; now f_equal | assumption | assumption].
Qed.

(** *** The shape of a cleaned bag is kept by the loop *)

Lemma map_fst_update (k : string) (v : value) (o : obj) :
  map fst (update k v o) = map fst o.
Proof.
  induction o as [|[k' v'] o IH]; simpl; [reflexivity|].
  destruct (k' =? k); simpl; [reflexivity | now f_equal].
Qed.

Lemma all_set_update (k : string) (v : value) (o : obj) :
  is_set v = true -> all_set o = true -> all_set (update k v o) = true.
Proof.
  unfold all_set. intros Hv. induction o as [|[k' v'] o IH]; simpl;
    [reflexivity|].
  intros H. apply andb_prop in H as [H1 H2].
  destruct (k' =? k); simpl; [now rewrite Hv | now rewrite H1, IH].
Qed.

Lemma update_app (k : string) (v : value) (a b : obj) :
  update k v (a ++ b)%list
  = if has_key k a then (update k v a ++ b)%list
    else (a ++ update k v b)%list.
Proof.
  unfold has_key. induction a as [|[k' v'] a IH]; simpl; [reflexivity|].
  destruct (k' =? k); [reflexivity|].
  rewrite IH. now destruct (lookup k a).
Qed.

Lemma ascending_keys (lo : N) (idx idx' : obj) :
  map fst idx = map fst idx' -> ascending lo idx -> ascending lo idx'.
Proof.
  revert lo idx'.
  induction idx as [|[k v] idx IH]; intros lo [|[k' v'] idx'] H;
    try discriminate H; [trivial|].
  simpl in H. injection H as -> H. simpl.
  intros (i & Hi & Hlo & Hrest). exists i. eauto.
Qed.

Lemma ascending_index (lo : N) (idx : obj) (k : string) :
  ascending lo idx -> In k (map fst idx) ->
  exists i, array_index k = Some i /\ (lo <= i)%N.
Proof.
  revert lo. induction idx as [|[k' v'] idx IH]; simpl; intros lo H [];
    destruct H as (i & Hi & Hlo & Hrest).
  - subst k'. now exists i.
  - destruct (IH _ Hrest H0) as (j & Hj & Hle). exists j. split; [exact Hj | lia].
Qed.

Lemma insert_index_app (i : N) (k : string) (v : value) (idx : obj)
  (k0 : string) (v0 : value) (strs : obj) :
  array_index k0 = None ->
  insert_index i k v (idx ++ (k0, v0) :: strs)%list
  = (insert_index i k v idx ++ (k0, v0) :: strs)%list.
Proof.
  intros H0. induction idx as [|[k' v'] idx IH]; simpl.
  - now rewrite H0.
  - destruct (array_index k') as [j|]; [|reflexivity].
    destruct (j <? i)%N; [now rewrite IH | reflexivity].
Qed.

Lemma insert_ascending (i : N) (k : string) (v : value) (lo : N) (idx : obj) :
  array_index k = Some i -> (lo <= i)%N ->
  (forall k', In k' (map fst idx) -> array_index k' <> Some i) ->
  ascending lo idx -> ascending lo (insert_index i k v idx).
Proof.
  intros Hk. revert lo.
  induction idx as [|[k' v'] idx IH]; intros lo Hlo Hfresh Hasc.
  - simpl. exists i. auto.
  - destruct Hasc as (j & Hj & Hloj & Hrest).
    cbn [insert_index]. rewrite Hj.
    assert (j <> i) by (intros ->; apply (Hfresh k'); [now left | exact Hj]).
    destruct (N.ltb_spec j i).
    + simpl. exists j. repeat split; try assumption.
      apply IH; [lia | | exact Hrest].
      intros k'' Hin. apply Hfresh. now right.
    + simpl. exists i. repeat split; try assumption.
      exists j. repeat split; [exact Hj | lia | exact Hrest].
Qed.

Lemma all_set_insert (i : N) (k : string) (v : value) (idx : obj) :
  is_set v = true -> all_set idx = true ->
  all_set (insert_index i k v idx) = true.
Proof.
  unfold all_set. intros Hv. induction idx as [|[k' v'] idx IH]; simpl.
  - now rewrite Hv.
  - intros H. assert (H' := H). apply andb_prop in H as [H1 H2].
    destruct (array_index k') as [j|]; [destruct (j <? i)%N|]; simpl;
      rewrite ?Hv, ?H1, ?H2, ?IH; auto.
Qed.

Lemma has_key_app (k : string) (a b : obj) :
  has_key k (a ++ b)%list = has_key k a || has_key k b.
Proof.
  unfold has_key. induction a as [|[k' v'] a IH]; simpl; [reflexivity|].
  now destruct (k' =? k).
Qed.

Lemma has_key_In (k : string) (o : obj) :
  has_key k o = true <-> In k (map fst o).
Proof.
  split.
  - intros H. destruct (in_dec string_dec k (map fst o)) as [Hin | Hn];
      [exact Hin|]. rewrite (has_key_false _ _ Hn) in H. discriminate H.
  - apply has_key_true.
Qed.

Lemma other_field_spec (k : string) :
  other_field k = true <->
  array_index k = None /\ k <> "__proto__" /\
  k <> "credential" /\ k <> "operation".
Proof.
  unfold other_field. rewrite !andb_true_iff, field_key_spec.
  destruct (String.eqb_spec k "credential"), (String.eqb_spec k "operation");
    simpl; intuition congruence.
Qed.

Lemma step_Clean (c : value) (o : obj) (k : string) (v : value) :
  k <> "credential" -> k <> "operation" ->
  Clean c o -> Clean c (step o (k, v)).
Proof.
  intros Hkc Hko HC. unfold step. cbn [fst snd].
  destruct (is_set v) eqn:Hv; [|exact HC].
  unfold obj_assign.
  destruct (String.eqb_spec k "__proto__") as [_ | Hproto]; [exact HC|].
  destruct HC as (idx & strs & -> & Hasc & Hf & Hnd & Hsi & Hss).
  unfold obj_set.
  destruct (has_key k (idx ++ ("credential", c) :: strs)%list) eqn:Hhas.
  - (* an existing key keeps its place *)
    rewrite update_app. destruct (has_key k idx).
    + exists (update k v idx), strs. repeat split; try assumption.
      * apply (ascending_keys 0 idx); [now rewrite map_fst_update | exact Hasc].
      * now apply all_set_update.
    + cbn [update]. destruct (String.eqb_spec "credential" k); [congruence|].
      exists idx, (update k v strs). rewrite map_fst_update.
      repeat split; try assumption. now apply all_set_update.
  - rewrite has_key_app, orb_false_iff in Hhas. destruct Hhas as [Hni Hns].
    assert (Hnotin : ~ In k (map fst idx))
      by (intros Hin; apply has_key_In in Hin; congruence).
    destruct (array_index k) as [i|] eqn:Hidx.
    + (* a new array index goes to its place among the indices *)
      rewrite insert_index_app by reflexivity.
      exists (insert_index i k v idx), strs. repeat split; try assumption.
      * apply insert_ascending; [exact Hidx | lia | | exact Hasc].
        intros k' Hin Hk'. apply Hnotin.
        now rewrite (array_index_inj _ _ _ Hidx Hk').
      * now apply all_set_insert.
    + (* a new field name goes to the end *)
      exists idx, (strs ++ [(k, v)])%list.
      rewrite <- app_assoc, map_app. cbn [app map fst].
      repeat split; try assumption.
      * rewrite forallb_app, Hf. cbn [forallb].
        assert (other_field k = true) as ->
            by (apply other_field_spec; auto).
        reflexivity.
      * apply NoDup_app; [exact Hnd | repeat constructor; auto |].
        intros x Hx [Ex | []]. subst x.
        assert (has_key k (("credential", c) :: strs) = true) as E.
        { unfold has_key. cbn [lookup].
          destruct (String.eqb_spec "credential" k); [reflexivity|].
          fold (has_key k strs). now apply has_key_In. }
        congruence.
      * unfold all_set in *. rewrite forallb_app, Hss. cbn [forallb snd].
        now rewrite Hv.
Qed.

Lemma fold_step_Clean (c : value) (l acc : obj) :
  (forall k, In k (map fst l) -> k <> "credential" /\ k <> "operation") ->
  Clean c acc -> Clean c (fold_left step l acc).
Proof.
  revert acc. induction l as [|[k v] l IH]; intros acc Hl HC; simpl;
    [exact HC|].
  apply IH.
  - intros k' Hin. apply Hl. now right.
  - destruct (Hl k) as [Hc Ho]; [now left|]. now apply step_Clean.
Qed.

Lemma rest_of_keys (bag : obj) (k : string) :
  In k (map fst (rest_of bag)) -> k <> "credential" /\ k <> "operation".
Proof.
  intros Hin. apply in_map_iff in Hin as ([k' v] & <- & Hin).
  apply filter_In in Hin as [_ H]. cbn [fst] in *.
  destruct (String.eqb_spec k' "credential"), (String.eqb_spec k' "operation");
    try discriminate H. now split.
Qed.

(** Whatever the bag, the result has the shape of a cleaned bag. *)
Lemma params_Clean (bag : obj) : Clean (own bag "credential") (params bag).
Proof.
  rewrite params_fold. apply fold_step_Clean; [apply rest_of_keys|].
  exists [], []. repeat split; constructor.
Qed.

(** *** A cleaned bag is a fixed point *)

Lemma insert_after_lower (i : N) (k : string) (v : value) (pre : obj)
  (k0 : string) (v0 : value) (tl : obj) :
  below i pre -> array_index k0 = None ->
  insert_index i k v (pre ++ (k0, v0) :: tl)%list
  = (pre ++ (k, v) :: (k0, v0) :: tl)%list.
Proof.
  intros Hpre H0. induction Hpre as [|[k' v'] pre (j & Hj & Hlt) _ IH]; simpl.
  - now rewrite H0.
  - cbn [fst] in Hj. rewrite Hj.
    apply N.ltb_lt in Hlt. now rewrite Hlt, IH.
Qed.

Lemma below_not_key (hi i : N) (pre : obj) (k : string) :
  below hi pre -> array_index k = Some i -> (hi <= i)%N ->
  ~ In k (map fst pre).
Proof.
  intros Hpre Hk Hle Hin. apply in_map_iff in Hin as ([k' v'] & <- & Hin).
  unfold below in Hpre. rewrite Forall_forall in Hpre.
  destruct (Hpre _ Hin) as (j & Hj & Hlt). cbn [fst] in *.
  rewrite Hk in Hj. injection Hj as <-. lia.
Qed.

(** The loop over ascending indices puts them back before [credential]. *)
Lemma fold_step_indices (c : value) (idx : obj) :
  forall (pre : obj) (lo : N),
    below lo pre -> ascending lo idx -> all_set idx = true ->
    fold_left step idx (pre ++ [("credential", c)])%list
    = (pre ++ idx ++ [("credential", c)])%list.
Proof.
  induction idx as [|[k v] idx IH]; intros pre lo Hpre Hasc Hset;
    [reflexivity|].
  destruct Hasc as (i & Hi & Hlo & Hrest).
  unfold all_set in Hset. cbn [forallb snd] in Hset.
  apply andb_prop in Hset as [Hv Hset].
  cbn [fold_left]. unfold step at 2. cbn [fst snd]. rewrite Hv.
  assert (Hstep : obj_assign (pre ++ [("credential", c)])%list k v
                  = ((pre ++ [(k, v)]) ++ [("credential", c)])%list).
  { unfold obj_assign, obj_set.
    destruct (String.eqb_spec k "__proto__") as [-> | _]; [discriminate Hi|].
    rewrite has_key_app.
    rewrite (has_key_false k pre)
      by (apply (below_not_key lo i); assumption).
    assert (has_key k [("credential", c)] = false) as ->.
    { unfold has_key. cbn [lookup].
      destruct (String.eqb_spec "credential" k) as [<- | _];
        [discriminate Hi | reflexivity]. }
    cbn [orb]. rewrite Hi.
    rewrite insert_after_lower; [now rewrite <- app_assoc | | reflexivity].
    unfold below in *. eapply Forall_impl; [|exact Hpre].
    intros kv (j & Hj & Hlt). exists j. split; [exact Hj | lia]. }
  rewrite Hstep.
  rewrite (IH (pre ++ [(k, v)])%list (i + 1)%N); [| | exact Hrest | exact Hset].
  - now rewrite <- app_assoc.
  - unfold below in *. apply Forall_app. split.
    + eapply Forall_impl; [|exact Hpre].
      intros kv (j & Hj & Hlt). exists j. split; [exact Hj | lia].
    + constructor; [|constructor]. exists i. split; [exact Hi | lia].
Qed.

Lemma filter_all {A} (f : A -> bool) (l : list A) :
  forallb f l = true -> filter f l = l.
Proof.
  induction l as [|x l IH]; simpl; [reflexivity|].
  intros H. apply andb_prop in H as [-> H]. now rewrite IH.
Qed.

Lemma lookup_app_skip (k : string) (a b : obj) :
  ~ In k (map fst a) -> lookup k (a ++ b)%list = lookup k b.
Proof.
  induction a as [|[k' v'] a IH]; simpl; intros H; [reflexivity|].
  destruct (String.eqb_spec k' k) as [-> | _]; [exfalso; apply H; now left|].
  apply IH. tauto.
Qed.

Lemma Clean_fixed (c : value) (o : obj) : Clean c o -> params o = o.
Proof.
  intros (idx & strs & -> & Hasc & Hf & Hnd & Hsi & Hss).
  assert (Hidx : forall k, In k (map fst idx) ->
                           exists i, array_index k = Some i)
    by (intros k Hin; destruct (ascending_index _ _ _ Hasc Hin) as (i & Hi & _);
        now exists i).
  assert (Hstr : forall k, In k (map fst strs) -> other_field k = true)
    by (intros k Hin; exact (proj1 (forallb_forall _ _) Hf k Hin)).
  rewrite params_fold.
  assert (Hown : own (idx ++ ("credential", c) :: strs)%list "credential" = c).
  { unfold own. rewrite lookup_app_skip; [reflexivity|].
    intros Hin. destruct (Hidx _ Hin) as [i Hi]. discriminate Hi. }
  assert (Hrest : rest_of (idx ++ ("credential", c) :: strs)%list
                  = (idx ++ strs)%list).
  { unfold rest_of. rewrite filter_app. cbn [filter fst].
    cbn. rewrite !filter_all; [reflexivity | |].
    - apply forallb_forall. intros [k v] Hin. cbn [fst].
      assert (Hk : other_field k = true)
        by (apply Hstr, in_map_iff; now exists (k, v)).
      apply other_field_spec in Hk as (_ & _ & Hc & Ho).
      destruct (String.eqb_spec k "credential"),
               (String.eqb_spec k "operation"); try congruence; reflexivity.
    - apply forallb_forall. intros [k v] Hin. cbn [fst].
      destruct (Hidx k) as [i Hi]; [apply in_map_iff; now exists (k, v)|].
      destruct (String.eqb_spec k "credential") as [-> | _];
        [discriminate Hi|].
      destruct (String.eqb_spec k "operation") as [-> | _];
        [discriminate Hi | reflexivity]. }
  rewrite Hown, Hrest, fold_left_app.
  pose proof (fold_step_indices c idx [] 0%N (Forall_nil _) Hasc Hsi)
    as Hfold.
  cbn [app] in Hfold. rewrite Hfold, fold_step_fields.
  - fold (all_set strs) in Hss. unfold all_set in Hss.
    rewrite (filter_all _ _ Hss). now rewrite <- app_assoc.
  - clear -Hf. induction strs as [|[k v] strs IH]; simpl in *; [reflexivity|].
    apply andb_prop in Hf as [Hk Hf]. rewrite (IH Hf), andb_true_r.
    unfold other_field in Hk. rewrite !andb_true_iff in Hk. tauto.
  - exact Hnd.
  - intros k Hin. specialize (Hstr k Hin).
    apply other_field_spec in Hstr as (Hnone & _ & Hc & _).
    rewrite map_app, in_app_iff. cbn.
    intros [H | [H | []]]; [|congruence].
    destruct (Hidx k H) as [i Hi]. congruence.
Qed.

(** C9.  Cleaning a cleaned bag changes nothing: the same keys, the same
    values, the same order. *)
Theorem params_idempotent (bag : obj) : params (params bag) = params bag.
Proof.
  apply (Clean_fixed (own bag "credential")), params_Clean.
Qed.

(** * Further properties *)

(** ** The instance resolver: failures, log and shape of the result *)

Section ResolverMore.

Variable logger : string.

Lemma call_match_origin (v : value) (o : string) :
  call_match v = Return (Some o) -> exists s, match_origin s = Some o.
Proof.
  destruct v; simpl; try discriminate. intros [= H]. now exists s.
Qed.

Lemma instanceUrlFromToken_origin (token u : string) :
  instanceUrlFromToken token = Return (Some u) ->
  exists s, match_origin s = Some u.
Proof.
  unfold instanceUrlFromToken.
  destruct (decodeIdToken token) as [decoded|]; [|discriminate].
  cbn [obind].
  destruct (getProp decoded "profile") as [profile|]; [|discriminate].
  cbn [obind]. destruct (truthy profile).
  - destruct (call_match profile) as [[o|]|] eqn:E; cbn [obind];
      try discriminate.
    intros [= <-]. now apply (call_match_origin profile).
  - destruct (getProp decoded "sub") as [sub|]; [|discriminate].
    cbn [obind]. destruct (truthy sub); [|discriminate].
    destruct (call_match sub) as [[o|]|] eqn:E; cbn [obind];
      try discriminate.
    destruct (negb (o =? login_host)); [|discriminate].
    intros [= <-]. now apply (call_match_origin sub).
Qed.

(** X1.  Whatever [getInstanceUrl] is given, the only error that leaves it
    is the one of its last line: what the decoding raises is caught.  It
    logs at most once, under its logger's name, and only when it fails. *)
Theorem only_missing_url_escapes (token instanceUrl : option string) :
  let r := getInstanceUrl logger token instanceUrl in
  (forall e, fst r = Throw e -> e = missing_url) /\
  (forall u, fst r = Return u -> snd r = []) /\
  (snd r = [] \/
   exists error,
     fst r = Throw missing_url /\
     snd r = [{| log_logger := logger;
                 log_message := "Failed to decode Salesforce idToken";
                 log_error := error |}]).
Proof.
  unfold getInstanceUrl.
  destruct (truthy (opt_value instanceUrl)).
  - cbn. repeat split; try discriminate; auto.
  - destruct token as [tok|]; [destruct (truthy (VStr tok))|].
    + destruct (instanceUrlFromToken tok) as [[u|]|error]; cbn.
      * repeat split; try discriminate; auto.
      * repeat split; try discriminate; auto. now intros e [= <-].
      * repeat split; try discriminate.
        -- now intros e [= <-].
        -- right. now exists error.
    + cbn. repeat split; try discriminate; auto. now intros e [= <-].
    + cbn. repeat split; try discriminate; auto. now intros e [= <-].
Qed.

(** X2.  A URL that [getInstanceUrl] returns is the explicit instance URL,
    which is then not empty, or else it is an https origin, [https://] and
    a host without slash: the result is never the empty string and never a
    URL with a path taken from the token. *)
Theorem resolved_url_shape (token instanceUrl : option string) (u : string) :
  fst (getInstanceUrl logger token instanceUrl) = Return u ->
  u <> "" /\ (instanceUrl = Some u \/ (no_explicit_url instanceUrl /\ is_origin u)).
Proof.
  unfold getInstanceUrl.
  destruct instanceUrl as [url|]; cbn [opt_value truthy template].
  - destruct (String.eqb_spec url "") as [-> | Hne]; cbn [negb].
    + destruct token as [tok|]; [cbn [truthy]; destruct (tok =? ""); cbn [negb]|];
        try (cbn; discriminate).
      destruct (instanceUrlFromToken tok) as [[o|]|error] eqn:E; cbn;
        try discriminate.
      intros H. injection H as Hu. subst o.
      destruct (instanceUrlFromToken_origin _ _ E) as [s Hs].
      apply match_origin_iff in Hs as (host & rest & _ & Hh & Hns & _ & ->).
      split; [discriminate|]. right. split; [now right|].
      now exists host.
    + cbn. intros [= <-]. split; [exact Hne | now left].
  - destruct token as [tok|]; [cbn [truthy]; destruct (tok =? ""); cbn [negb]|];
      try (cbn; discriminate).
    destruct (instanceUrlFromToken tok) as [[o|]|error] eqn:E; cbn;
      try discriminate.
    intros H. injection H as Hu. subst o.
    destruct (instanceUrlFromToken_origin _ _ E) as [s Hs].
    apply match_origin_iff in Hs as (host & rest & _ & Hh & Hns & _ & ->).
    split; [discriminate|]. right. split; [now left|].
    now exists host.
Qed.

(** X3.  A [profile] string that is not empty and does not begin with an
    https origin ends the search: [sub] is not looked at, whatever it holds,
    and the resolver fails without logging. *)
Theorem profile_shadows_sub
  (token : string) (instanceUrl : option string)
  (payload : obj) (profile : string) :
  no_explicit_url instanceUrl ->
  decodeIdToken token = Return (VObj payload) ->
  lookup "profile" payload = Some (VStr profile) ->
  profile <> "" ->
  (forall o, ~ begins_with_origin profile o) ->
  getInstanceUrl logger (Some token) instanceUrl = (Throw missing_url, []).
Proof.
  intros Hu Hdec Hp Hne Hno.
  assert (Ht : token <> "") by (intros ->; discriminate Hdec).
  rewrite (getInstanceUrl_token _ _ _ Hu Ht).
  unfold instanceUrlFromToken. rewrite Hdec.
  cbn [obind getProp]. rewrite Hp, (nonempty_truthy _ Hne).
  cbn [call_match obind].
  destruct (match_origin profile) as [o|] eqn:E; [|reflexivity].
  apply match_origin_iff in E. now destruct (Hno o).
Qed.

End ResolverMore.

Lemma resolved_url_shape_witness :
  is_origin "https://acme.my.salesforce.com".
Proof.
  destruct (resolved_url_shape "SalesforceReports" (Some token_sub_acme) None
              "https://acme.my.salesforce.com")
    as [_ [H | [_ H]]].
  - vm_compute. reflexivity.
  - discriminate H.
  - exact H.
Defined.

Lemma profile_shadows_sub_witness :
  lookup "sub" [("profile", VStr "http://x");
                ("sub", VStr "https://acme.my.salesforce.com/id")]
  = Some (VStr "https://acme.my.salesforce.com/id") /\
  getInstanceUrl "SalesforceDashboards" (Some token_profile_http) None
  = (Throw missing_url, []).
Proof.
  split; [reflexivity|].
  apply (profile_shadows_sub "SalesforceDashboards" token_profile_http None
           [("profile", VStr "http://x");
            ("sub", VStr "https://acme.my.salesforce.com/id")]
           "http://x").
  - now left.
  - vm_compute. reflexivity.
  - reflexivity.
  - discriminate.
  - intros o H. apply match_origin_iff in H. discriminate H.
Defined.

(** ** Tokens that cannot resolve *)

Section Unresolvable.

Variable logger : string.

(** X18.  Only a payload that is a JSON object can give a URL: when the
    payload is [null], a number, a boolean, a string or an array, the
    resolver fails; it logs in the cases of [null] and of a string, where
    reading [profile] or calling [match] raises a [TypeError]. *)
Theorem only_objects_resolve
  (token : string) (instanceUrl : option string) (decoded : value) :
  no_explicit_url instanceUrl ->
  decodeIdToken token = Return decoded ->
  (forall o, decoded <> VObj o) ->
  fst (getInstanceUrl logger (Some token) instanceUrl) = Throw missing_url /\
  (snd (getInstanceUrl logger (Some token) instanceUrl) <> [] <->
   nullish decoded = true \/ exists s, decoded = VStr s).
Proof.
  intros Hu Hdec Hno.
  assert (Ht : token <> "") by (intros ->; discriminate Hdec).
  rewrite (getInstanceUrl_token _ _ _ Hu Ht).
  unfold instanceUrlFromToken. rewrite Hdec.
  destruct decoded; cbn.
  - split; [reflexivity|]. split; [intros _; now left | discriminate].
  - split; [reflexivity|]. split; [intros _; now left | discriminate].
  - split; [reflexivity|]. split; [intros H; now contradiction H|].
    intros [H | [s H]]; discriminate H.
  - split; [reflexivity|]. split; [intros H; now contradiction H|].
    intros [H | [s H]]; discriminate H.
  - split; [reflexivity|].
    split; [intros _; right; now eexists | discriminate].
  - split; [reflexivity|]. split; [intros H; now contradiction H|].
    intros [H | [s H]]; discriminate H.
  - now destruct (Hno props).
  - split; [reflexivity|]. split; [intros H; now contradiction H|].
    intros [H | [s H]]; discriminate H.
Qed.

Lemma split_undotted (s : string) : no_dot s -> split "." s = [s].
Proof.
  unfold no_dot. induction s as [|c s IH]; intros H; [reflexivity|].
  simpl in H. apply andb_prop in H as [Hc H].
  cbn [split]. rewrite (IH H). now destruct (c =? ".")%char.
Qed.

(** X19.  A token without a dot has no second segment: reading it raises a
    [TypeError], which is logged, and the resolver fails. *)
Theorem undotted_token_logged (token : string) (instanceUrl : option string) :
  no_explicit_url instanceUrl -> token <> "" -> no_dot token ->
  getInstanceUrl logger (Some token) instanceUrl
  = (Throw missing_url,
     [{| log_logger := logger;
         log_message := "Failed to decode Salesforce idToken";
         log_error := TypeError "Cannot read properties of undefined" |}]).
Proof.
  intros Hu Ht Hd. rewrite (getInstanceUrl_token _ _ _ Hu Ht).
  unfold instanceUrlFromToken, decodeIdToken.
  now rewrite (split_undotted _ Hd).
Qed.

End Unresolvable.

Lemma only_objects_resolve_witness :
  fst (getInstanceUrl "SalesforceReports" (Some "e30.ImhlbGxvIg.sig") None)
  = Throw missing_url /\
  snd (getInstanceUrl "SalesforceReports" (Some "e30.ImhlbGxvIg.sig") None)
  <> [].
Proof.
  destruct (only_objects_resolve "SalesforceReports" "e30.ImhlbGxvIg.sig"
              None (VStr "hello")) as [Hfst Hsnd].
  - now left.
  - vm_compute. reflexivity.
  - discriminate.
  - split; [exact Hfst|]. apply Hsnd. right. now exists "hello".
Defined.

Lemma undotted_token_logged_witness :
  getInstanceUrl "SalesforceDashboards" (Some "garbage") (Some "")
  = (Throw missing_url,
     [{| log_logger := "SalesforceDashboards";
         log_message := "Failed to decode Salesforce idToken";
         log_error := TypeError "Cannot read properties of undefined" |}]).
Proof.
  apply (undotted_token_logged "SalesforceDashboards" "garbage" (Some "")).
  - now right.
  - discriminate.
  - reflexivity.
Defined.

(** ** The token: only its second segment counts *)

Lemma split_first_segment (h r : string) :
  no_dot h -> split "." (h ++ String "." r) = h :: split "." r.
Proof.
  unfold no_dot. induction h as [|c h IH]; intros Hh.
  - reflexivity.
  - simpl in Hh. apply andb_prop in Hh as [Hc Hh].
    cbn [append split]. rewrite (IH Hh).
    now destruct (c =? ".")%char.
Qed.

Lemma second_segment (h p s : string) :
  no_dot h -> no_dot p ->
  nth_error (split "." (h ++ "." ++ p ++ "." ++ s)) 1 = Some p.
Proof.
  intros Hh Hp.
  change (h ++ "." ++ p ++ "." ++ s) with (h ++ String "." (p ++ String "." s)).
  now rewrite (split_first_segment h _ Hh), (split_first_segment p _ Hp).
Qed.

Lemma joined_not_empty (h r : string) : truthy (VStr (h ++ String "." r)) = true.
Proof. now destruct h. Qed.

(** X4.  Of a token of three segments only the second is read: two tokens
    with the same payload segment resolve alike, whatever their header and
    their signature.  The signature is not verified. *)
Theorem signature_ignored
  (logger : string) (instanceUrl : option string)
  (header1 header2 payload signature1 signature2 : string) :
  no_dot header1 -> no_dot header2 -> no_dot payload ->
  getInstanceUrl logger
    (Some (header1 ++ "." ++ payload ++ "." ++ signature1)) instanceUrl
  = getInstanceUrl logger
      (Some (header2 ++ "." ++ payload ++ "." ++ signature2)) instanceUrl.
Proof.
  intros H1 H2 Hp. unfold getInstanceUrl.
  destruct (truthy (opt_value instanceUrl)); [reflexivity|].
  change (header1 ++ "." ++ payload ++ "." ++ signature1)
    with (header1 ++ String "." (payload ++ "." ++ signature1)).
  change (header2 ++ "." ++ payload ++ "." ++ signature2)
    with (header2 ++ String "." (payload ++ "." ++ signature2)).
  rewrite !joined_not_empty.
  unfold instanceUrlFromToken, decodeIdToken.
  change (header1 ++ String "." (payload ++ "." ++ signature1))
    with (header1 ++ "." ++ payload ++ "." ++ signature1).
  change (header2 ++ String "." (payload ++ "." ++ signature2))
    with (header2 ++ "." ++ payload ++ "." ++ signature2).
  now rewrite (second_segment _ _ _ H1 Hp), (second_segment _ _ _ H2 Hp).
Qed.

Lemma signature_ignored_witness :
  getInstanceUrl "SalesforceReports" (Some token_sub_acme) None
  = getInstanceUrl "SalesforceReports"
      (Some ("eyJhbGciOiJSUzI1NiJ9"
             ++ "."
             ++ "eyJzdWIiOiJodHRwczovL2FjbWUubXkuc2FsZXNmb3JjZS5jb20vaWQveHl6In0"
             ++ "." ++ "forged"))
      None.
Proof.
  apply (signature_ignored "SalesforceReports" None "e30"
           "eyJhbGciOiJSUzI1NiJ9"
           "eyJzdWIiOiJodHRwczovL2FjbWUubXkuc2FsZXNmb3JjZS5jb20vaWQveHl6In0"
           "sig" "forged"); reflexivity.
Defined.

(** ** The payload: from base64 to the JSON text *)

Lemma decode_sextets_bytes (ds : list N) :
  Forall (fun d => (d < 64)%N) ds ->
  Forall (fun c => (c < 256)%N) (decode_sextets ds).
Proof.
  revert ds.
  assert (Hdiv : forall a b, (b <> 0)%N -> (a mod b < b)%N)
    by (intros; now apply N.mod_lt).
  fix IH 1. intros [|a [|b [|c [|d rest]]]] H; cbn [decode_sextets].
  - constructor.
  - constructor.
  - inversion H as [|? ? Ha H']; subst. inversion H' as [|? ? Hb _]; subst.
    constructor; [|constructor].
    apply N.Div0.div_lt_upper_bound. lia.
  - inversion H as [|? ? Ha H']; subst. inversion H' as [|? ? Hb H'']; subst.
    inversion H'' as [|? ? Hc _]; subst.
    constructor; [|constructor; [|constructor]].
    + apply N.Div0.div_lt_upper_bound. lia.
    + apply Hdiv. discriminate.
  - inversion H as [|? ? Ha H']; subst. inversion H' as [|? ? Hb H'']; subst.
    inversion H'' as [|? ? Hc H3]; subst. inversion H3 as [|? ? Hd H4]; subst.
    constructor; [|constructor; [|constructor]].
    + apply N.Div0.div_lt_upper_bound. lia.
    + apply Hdiv. discriminate.
    + apply Hdiv. discriminate.
    + apply IH. exact H4.
Qed.

Lemma base64_digit_bound (c : ascii) (d : N) :
  base64_digit c = Some d -> (d < 64)%N.
Proof.
  unfold base64_digit.
  repeat match goal with
         | |- context [if ?b then _ else _] => destruct b eqn:?
         end; intros [= <-]; try discriminate;
    repeat match goal with
           | H : (_ && _) = true |- _ => apply andb_prop in H as [? ?]
           | H : (_ <=? _)%N = true |- _ => apply N.leb_le in H
           end; lia.
Qed.

Lemma map_option_Forall {A B} (f : A -> option B) (P : B -> Prop)
  (l : list A) (l' : list B) :
  (forall x y, f x = Some y -> P y) ->
  map_option f l = Some l' -> Forall P l'.
Proof.
  intros Hf. revert l'. induction l as [|x l IH]; simpl; intros l' H.
  - injection H as <-. constructor.
  - destruct (f x) as [y|] eqn:Hy; [|discriminate].
    destruct (map_option f l) as [ys|]; [|discriminate].
    injection H as <-. constructor; [now apply (Hf x) | now apply IH].
Qed.

Lemma atob_bytes (s : string) (l : list N) :
  atob s = Return l -> Forall (fun c => (c < 256)%N) l.
Proof.
  unfold atob.
  match goal with
  | |- context [map_option base64_digit ?d] =>
      destruct (map_option base64_digit d) as [ds|] eqn:E
  end.
  - destruct (_ =? 1)%nat; [discriminate|]. intros [= <-].
    apply decode_sextets_bytes.
    apply (map_option_Forall base64_digit _ _ _ base64_digit_bound E).
  - destruct (_ =? 1)%nat; discriminate.
Qed.

Lemma two_digit_escapeb_sound (c : N) :
  two_digit_escapeb c = true -> two_digit_escape c.
Proof.
  unfold two_digit_escapeb, two_digit_escape.
  destruct (percentEscape c) as [|p [|h1 [|h2 [|x r]]]];
    cbn [chars list_ascii_of_string]; try discriminate.
  intros H. apply andb_prop in H as [Hp H].
  apply Ascii.eqb_eq in Hp. subst p.
  destruct (hex_value h1) as [d1|] eqn:E1; [|discriminate].
  destruct (hex_value h2) as [d2|] eqn:E2; [|discriminate].
  apply N.eqb_eq in H. now exists h1, h2, d1, d2.
Qed.

Lemma below_256_listed (c : N) :
  (c < 256)%N -> In c (map N.of_nat (seq 0 256)).
Proof.
  intros H. apply in_map_iff. exists (N.to_nat c). split; [lia|].
  apply in_seq. lia.
Qed.

Lemma byte_escape (c : N) : (c < 256)%N -> two_digit_escape c.
Proof.
  intros H. apply two_digit_escapeb_sound.
  assert (Hall : forallb two_digit_escapeb (map N.of_nat (seq 0 256)) = true)
    by (vm_compute; reflexivity).
  rewrite forallb_forall in Hall. apply Hall. now apply below_256_listed.
Qed.

(** X5.  Every character of the string that [atob] gives has a code below
    256, and so its escape is [%] followed by exactly the two hexadecimal
    digits of the code: [slice(-2)] cuts no digit off. *)
Theorem payload_escapes_two_digits (base64 : string) (binary : list N) :
  atob base64 = Return binary ->
  Forall (fun c => (c < 256)%N /\ two_digit_escape c) binary.
Proof.
  intros H. apply atob_bytes in H.
  eapply Forall_impl; [|exact H].
  intros c Hc. split; [exact Hc | now apply byte_escape].
Qed.

Lemma payload_escapes_two_digits_witness :
  Forall (fun c => (c < 256)%N /\ two_digit_escape c) [255; 0; 16]%N.
Proof.
  apply (payload_escapes_two_digits "/wAQ"). reflexivity.
Defined.

Lemma escape_chars (c : N) (rest : list ascii) :
  (c < 256)%N ->
  exists h1 h2 d1 d2,
    (chars (percentEscape c) ++ rest)%list = "%"%char :: h1 :: h2 :: rest /\
    hex_value h1 = Some d1 /\ hex_value h2 = Some d2 /\
    c = (d1 * 16 + d2)%N.
Proof.
  intros H.
  destruct (byte_escape c H) as (h1 & h2 & d1 & d2 & He & H1 & H2 & Hd).
  exists h1, h2, d1, d2. rewrite He. now repeat split.
Qed.

Lemma decode_start (c : N) (rest : list ascii) :
  (c < 256)%N ->
  decodeURI_from [] 0 (chars (percentEscape c) ++ rest)%list
  = match utf8_width c with
    | Some 1%nat => option_map (cons (ascii_of_N c)) (decodeURI_from [] 0 rest)
    | Some (S n) => decodeURI_from [c] n rest
    | _ => None
    end.
Proof.
  intros H.
  destruct (escape_chars c rest H) as (h1 & h2 & d1 & d2 & -> & H1 & H2 & ->).
  cbn [decodeURI_from]. change (("%" =? "%")%char) with true. cbn iota.
  now rewrite H1, H2.
Qed.

Lemma decode_continue (pending : list N) (n : nat) (c : N)
  (rest : list ascii) :
  (c < 256)%N ->
  decodeURI_from pending (S n) (chars (percentEscape c) ++ rest)%list
  = if in_range 128 191 c then
      match n with
      | O =>
          if valid_utf8_seq (rev (c :: pending)) then
            option_map (app (map ascii_of_N (rev (c :: pending))))
                       (decodeURI_from [] 0 rest)
          else None
      | S _ => decodeURI_from (c :: pending) n rest
      end
    else None.
Proof.
  intros H.
  destruct (escape_chars c rest H) as (h1 & h2 & d1 & d2 & -> & H1 & H2 & ->).
  cbn [decodeURI_from]. change (("%" =? "%")%char) with true. cbn iota.
  now rewrite H1, H2.
Qed.

Lemma decode_cut_short (pending : list N) (n : nat) :
  decodeURI_from pending (S n) [] = None.
Proof. reflexivity. Qed.

Lemma chars_join_cons (c : N) (l : list N) :
  chars (join (map percentEscape (c :: l)))
  = (chars (percentEscape c) ++ chars (join (map percentEscape l)))%list.
Proof. cbn [map join fold_right]. apply chars_app. Qed.

(** Decide, where the bounds at hand allow it, the tests on bytes that
    occur in the goal, and split on the others. *)
Ltac settle_bytes :=
  repeat match goal with
         | |- context [valid_utf8_seq ?l] =>
             first [ assert (valid_utf8_seq l = false) as ->
                       by (unfold valid_utf8_seq, in_range; lia)
                   | assert (valid_utf8_seq l = true) as ->
                       by (unfold valid_utf8_seq, in_range; lia) ]
         | |- context [in_range ?a ?b ?c] =>
             first [ assert (in_range a b c = false) as ->
                       by (unfold in_range; lia)
                   | assert (in_range a b c = true) as ->
                       by (unfold in_range; lia) ]
         end;
  cbn [andb option_map app map];
  repeat match goal with
         | |- context [if ?b then _ else _] => destruct b
         end;
  try reflexivity.

Lemma escape_decode_utf8 (bytes : list N) :
  Forall (fun c => (c < 256)%N) bytes ->
  decodeURI_from [] 0 (chars (join (map percentEscape bytes)))
  = if utf8_wf bytes then Some (map ascii_of_N bytes) else None.
Proof.
  revert bytes. fix IH 1.
  intros [|b0 r0] H; [reflexivity|].
  inversion H as [|? ? H0 Hr0]; subst.
  rewrite chars_join_cons, (decode_start _ _ H0).
  cbn [utf8_wf]. unfold utf8_width.
  destruct (b0 <? 128)%N eqn:E0.
  { rewrite (IH r0 Hr0). settle_bytes. }
  destruct (b0 <? 192)%N eqn:E1.
  { destruct r0 as [|b1 [|b2 [|b3 r3]]]; settle_bytes. }
  destruct (b0 <? 224)%N eqn:E2.
  { destruct r0 as [|b1 r1]; [settle_bytes|].
    inversion Hr0 as [|? ? H1 Hr1]; subst.
    rewrite chars_join_cons, (decode_continue _ _ _ _ H1), (IH r1 Hr1).
    cbn [rev app].
    destruct (valid_utf8_seq [b0; b1]) eqn:V2;
      unfold valid_utf8_seq, in_range in V2.
    - settle_bytes.
    - destruct r1 as [|b2 [|b3 r3]]; settle_bytes. }
  destruct (b0 <? 240)%N eqn:E3.
  { destruct r0 as [|b1 r1]; [settle_bytes|].
    inversion Hr0 as [|? ? H1 Hr1]; subst.
    rewrite chars_join_cons, (decode_continue _ _ _ _ H1).
    destruct r1 as [|b2 r2]; [settle_bytes|].
    inversion Hr1 as [|? ? H2 Hr2]; subst.
    destruct (in_range 128 191 b1) eqn:C1; unfold in_range in C1.
    - rewrite chars_join_cons, (decode_continue _ _ _ _ H2), (IH r2 Hr2).
      cbn [rev app].
      destruct (valid_utf8_seq [b0; b1; b2]) eqn:V3;
        unfold valid_utf8_seq, in_range in V3.
      + settle_bytes.
      + destruct r2 as [|b3 r3]; settle_bytes.
    - destruct r2 as [|b3 r3]; settle_bytes. }
  destruct (b0 <? 248)%N eqn:E4.
  { destruct r0 as [|b1 r1]; [settle_bytes|].
    inversion Hr0 as [|? ? H1 Hr1]; subst.
    rewrite chars_join_cons, (decode_continue _ _ _ _ H1).
    destruct r1 as [|b2 r2]; [settle_bytes|].
    inversion Hr1 as [|? ? H2 Hr2]; subst.
    destruct r2 as [|b3 r3];
      [destruct (in_range 128 191 b1) eqn:C1; unfold in_range in C1;
       [rewrite chars_join_cons, (decode_continue _ _ _ _ H2)|];
       settle_bytes|].
    inversion Hr2 as [|? ? H3 Hr3]; subst.
    destruct (in_range 128 191 b1) eqn:C1; unfold in_range in C1;
      [|settle_bytes].
    rewrite chars_join_cons, (decode_continue _ _ _ _ H2).
    destruct (in_range 128 191 b2) eqn:C2; unfold in_range in C2;
      [|settle_bytes].
    rewrite chars_join_cons, (decode_continue _ _ _ _ H3), (IH r3 Hr3).
    cbn [rev app].
    destruct (valid_utf8_seq [b0; b1; b2; b3]) eqn:V4;
      unfold valid_utf8_seq, in_range in V4; settle_bytes. }
  destruct r0 as [|b1 [|b2 [|b3 r3]]]; settle_bytes.
Qed.

(** X6.  What the helper parses as JSON is the text whose UTF-8 bytes the
    second segment of the token encodes in base64 (standard or URL-safe
    alphabet): when these bytes are well-formed UTF-8, escaping them and
    calling [decodeURIComponent] gives the text back, byte for byte, and
    when they are not, decoding fails with a [URIError]. *)
Theorem payload_decoded_as_utf8 (token segment : string) (binary : list N) :
  nth_error (split "." token) 1 = Some segment ->
  atob (replace_all "_" "/" (replace_all "-" "+" segment)) = Return binary ->
  decodeIdToken token
  = if utf8_wf binary then JSON_parse (str (map ascii_of_N binary))
    else Throw URIError.
Proof.
  intros Hseg Hb. unfold decodeIdToken.
  rewrite Hseg. cbn [obind]. rewrite Hb. cbn [obind].
  unfold decodeURIComponent.
  rewrite (escape_decode_utf8 _ (atob_bytes _ _ Hb)).
  now destruct (utf8_wf binary).
Qed.

Lemma payload_decoded_as_utf8_witness :
  decodeIdToken "e30.eyJuYW1lIjoiSm9zw6kifQ.sig"
  = JSON_parse (str (map ascii_of_N payload_utf8)) /\
  decodeIdToken "e30.eyJuYW1lIjoiSm9zwyJ9.sig" = Throw URIError.
Proof.
  split.
  - apply (payload_decoded_as_utf8 "e30.eyJuYW1lIjoiSm9zw6kifQ.sig"
             "eyJuYW1lIjoiSm9zw6kifQ" payload_utf8); reflexivity.
  - apply (payload_decoded_as_utf8 "e30.eyJuYW1lIjoiSm9zwyJ9.sig"
             "eyJuYW1lIjoiSm9zwyJ9" payload_cut); reflexivity.
Defined.

(** ** The tools: URL, headers, body *)

Ltac unfold_url :=
  cbn [url Reports.salesforceListReportsTool
       Reports.salesforceGetReportMetadataTool
       Reports.salesforceRunReportTool
       Reports.salesforceRunReportAsyncTool
       Reports.salesforceGetReportInstanceTool
       Reports.salesforceListReportInstancesTool
       Reports.salesforceDeleteReportInstanceTool
       Reports.salesforceRunReportWithFiltersTool
       Reports.salesforceCreateReportTool
       Reports.salesforceUpdateReportTool
       Reports.salesforceDeleteReportTool
       Dashboards.salesforceListDashboardsTool
       Dashboards.salesforceGetDashboardTool
       Dashboards.salesforceRefreshDashboardTool
       Dashboards.salesforceCloneDashboardTool
       Dashboards.salesforceDeleteDashboardTool
       Dashboards.salesforceGetDashboardComponentTool].

(** Case analysis on membership in a list of tools. *)
Ltac each_member H :=
  simpl in H;
  repeat (destruct H as [H | H]; [subst |]);
  [.. | contradiction H].

(** X7.  Every tool builds its URL from what [getInstanceUrl] resolves,
    followed by [/services/data/v59.0/analytics/reports] for the tools of
    reports.ts and [/services/data/v59.0/analytics/dashboards] for those of
    dashboards.ts; a failure of the resolver is the failure of the URL
    builder, and nothing else is logged. *)
Theorem url_follows_resolver (t : ToolConfig) (p : Params) :
  (In t reportTools -> follows_resolver "SalesforceReports" "reports" t p) /\
  (In t dashboardTools ->
   follows_resolver "SalesforceDashboards" "dashboards" t p).
Proof.
  split; intros Hin; each_member Hin; unfold follows_resolver; unfold_url;
    unfold withInstanceUrl, Reports.logger, Dashboards.logger; cbn [fst snd];
    (split; [reflexivity|]);
    destruct (fst (getInstanceUrl _ _ _)) as [base|e]; cbn [obind];
    try reflexivity; eexists; cbn; reflexivity.
Qed.

Lemma url_follows_resolver_witness :
  follows_resolver "SalesforceReports" "reports"
                   Reports.salesforceGetReportInstanceTool noParams.
Proof.
  apply (url_follows_resolver Reports.salesforceGetReportInstanceTool noParams).
  simpl. tauto.
Defined.

(** X8.  No response transformer reads the credentials: two calls that
    differ only in [accessToken], [idToken], [instanceUrl] (or in the
    parameters that only shape the request) give the same result, so the
    output never carries a token. *)
Theorem output_free_of_credentials
  (t : ToolConfig) (r : Response) (p q : Params) :
  In t allTools -> same_user_input p q ->
  transformResponse t r p = transformResponse t r q.
Proof.
  intros Hin (Hr & Hi & Hd & Hc & Hn).
  unfold allTools in Hin. each_member Hin; unfold_tool;
    rewrite ?Hr, ?Hi, ?Hd, ?Hc, ?Hn; reflexivity.
Qed.

Lemma output_free_of_credentials_witness :
  transformResponse Reports.salesforceRunReportTool response200 noParams
  = transformResponse Reports.salesforceRunReportTool response200
                      otherCredentials.
Proof.
  apply (output_free_of_credentials Reports.salesforceRunReportTool).
  - simpl. tauto.
  - repeat split.
Defined.



Ltac unfold_method :=
  cbn [method id Reports.salesforceListReportsTool
       Reports.salesforceGetReportMetadataTool
       Reports.salesforceRunReportTool
       Reports.salesforceRunReportAsyncTool
       Reports.salesforceGetReportInstanceTool
       Reports.salesforceListReportInstancesTool
       Reports.salesforceDeleteReportInstanceTool
       Reports.salesforceRunReportWithFiltersTool
       Reports.salesforceCreateReportTool
       Reports.salesforceUpdateReportTool
       Reports.salesforceDeleteReportTool
       Dashboards.salesforceListDashboardsTool
       Dashboards.salesforceGetDashboardTool
       Dashboards.salesforceRefreshDashboardTool
       Dashboards.salesforceCloneDashboardTool
       Dashboards.salesforceDeleteDashboardTool
       Dashboards.salesforceGetDashboardComponentTool].

(** X10.  Every tool sends [Authorization: Bearer <accessToken>].  The
    DELETE tools send no [Content-Type], all the others send
    [application/json]; a body is built by the POST and PATCH tools and by
    no other. *)
Theorem request_shape (t : ToolConfig) :
  In t allTools ->
  exists r,
    requestOf (id t) requests = Some r /\
    (forall p, lookup "Authorization" (headers r p)
               = Some (VStr ("Bearer " ++ template (accessToken p)))) /\
    (forall p, lookup "Content-Type" (headers r p)
               = if method t =? "DELETE" then None
                 else Some (VStr "application/json")) /\
    (body r <> None <-> method t = "POST" \/ method t = "PATCH").
Proof.
  intros Hin. unfold allTools in Hin.
  each_member Hin; unfold_method; eexists;
    (split; [reflexivity |
      split; [reflexivity |
        split; [reflexivity |
          cbn [body]; split;
          [ intros H; first [ now left | now right | now contradiction H ]
          | intros [H | H]; discriminate ]]]]).
Qed.

Lemma request_shape_witness :
  exists r,
    requestOf "salesforce_delete_report" requests = Some r /\
    (forall p, lookup "Content-Type" (headers r p) = None) /\
    body r = None.
Proof.
  destruct (request_shape Reports.salesforceDeleteReportTool)
    as (r & Hr & _ & Hct & Hbody).
  - simpl. tauto.
  - exists r. split; [exact Hr|]. split; [exact Hct|].
    destruct (body r) as [b|]; [|reflexivity].
    destruct Hbody as [Hb _].
    destruct Hb as [H | H]; [discriminate | discriminate H | discriminate H].
Defined.





(** ** The block: dispatch table, tools and sub-blocks *)

Lemma switch_Return (x r : string) (clauses : list (string * string))
  (default : exn) :
  switch x clauses default = Return r -> In (x, r) clauses.
Proof.
  induction clauses as [|[label result] rest IH]; simpl; [discriminate|].
  destruct (String.eqb_spec x label) as [-> | _].
  - intros [= <-]. now left.
  - intros H. right. now apply IH.
Qed.

Lemma switch_In (x r : string) (clauses : list (string * string))
  (default : exn) :
  NoDup (map fst clauses) -> In (x, r) clauses ->
  switch x clauses default = Return r.
Proof.
  induction clauses as [|[label result] rest IH]; simpl; intros Hnd Hin;
    [contradiction|].
  inversion Hnd as [|? ? Hnotin Hnd']; subst.
  destruct Hin as [[= -> ->] | Hin].
  - now rewrite String.eqb_refl.
  - destruct (String.eqb_spec x label) as [-> | _]; [|now apply IH].
    exfalso. apply Hnotin. apply in_map_iff. now exists (label, r).
Qed.

Ltac nodup_strings :=
  repeat (constructor;
          [simpl; intros H;
           repeat (destruct H as [H | H]; [discriminate H|]); exact H|]);
  constructor.

Lemma operationIds_NoDup : NoDup operationIds.
Proof. unfold operationIds. nodup_strings. Qed.

Lemma access_NoDup : NoDup access.
Proof. unfold access. nodup_strings. Qed.

Lemma unique_by_snd {A B} (l : list (A * B)) (a b : A) (t : B) :
  NoDup (map snd l) -> In (a, t) l -> In (b, t) l -> a = b.
Proof.
  induction l as [|[x y] l IH]; simpl; intros Hnd Ha Hb; [contradiction|].
  inversion Hnd as [|? ? Hnotin Hnd']; subst.
  destruct Ha as [Ha | Ha], Hb as [Hb | Hb].
  - congruence.
  - injection Ha as -> ->.
    exfalso. apply Hnotin. apply in_map_iff. now exists (b, t).
  - injection Hb as -> ->.
    exfalso. apply Hnotin. apply in_map_iff. now exists (a, t).
  - now apply IH.
Qed.

Lemma access_dispatched (toolId : string) :
  In toolId access ->
  exists operation, In operation operationIds /\ tool operation = Return toolId.
Proof.
  change access with (map snd cases). intros Hin.
  apply in_map_iff in Hin as ([op t] & Ht & Hin). cbn [snd] in Ht. subst t.
  exists op. split.
  - change operationIds with (map fst cases).
    apply in_map_iff. now exists (op, toolId).
  - unfold tool. apply switch_In; [|exact Hin].
    change (map fst cases) with operationIds. apply operationIds_NoDup.
Qed.

(** X12.  The dispatcher is a one-to-one correspondence between the
    operations of the dropdown and the tool ids of [tools.access]: it
    returns only ids that the block lists, it reaches each of them, and two
    operations never share a tool. *)
Theorem dispatch_one_to_one :
  (forall operation toolId,
      tool operation = Return toolId ->
      In operation operationIds /\ In toolId access) /\
  (forall toolId,
      In toolId access ->
      exists operation,
        In operation operationIds /\ tool operation = Return toolId) /\
  (forall a b toolId,
      tool a = Return toolId -> tool b = Return toolId -> a = b).
Proof.
  split; [|split].
  - intros op t H. apply switch_Return in H. split.
    + change operationIds with (map fst cases).
      apply in_map_iff. now exists (op, t).
    + change access with (map snd cases).
      apply in_map_iff. now exists (op, t).
  - apply access_dispatched.
  - intros a b t Ha Hb. apply switch_Return in Ha, Hb.
    apply (unique_by_snd cases a b t); [|exact Ha | exact Hb].
    change (map snd cases) with access. apply access_NoDup.
Qed.

Lemma dispatch_one_to_one_witness :
  "run_report" = "run_report" /\
  exists operation, tool operation = Return "salesforce_clone_dashboard".
Proof.
  destruct dispatch_one_to_one as (_ & Hsurj & Hinj). split.
  - apply (Hinj "run_report" "run_report" "salesforce_run_report");
      reflexivity.
  - destruct (Hsurj "salesforce_clone_dashboard") as (op & _ & Hop).
    + unfold access. simpl. tauto.
    + now exists op.
Defined.

Lemma inclb_sound (a b : list string) : inclb a b = true -> incl a b.
Proof.
  unfold inclb. intros H x Hx.
  rewrite forallb_forall in H. specialize (H x Hx).
  apply existsb_exists in H as (y & Hy & Hxy).
  apply String.eqb_eq in Hxy. now subst y.
Qed.

(** The operation that is dispatched to the tool id of the goal. *)
Ltac pick_operation :=
  first [ exists "list_reports"; split; [simpl; tauto | reflexivity]
        | exists "get_report_metadata"; split; [simpl; tauto | reflexivity]
        | exists "run_report"; split; [simpl; tauto | reflexivity]
        | exists "run_report_async"; split; [simpl; tauto | reflexivity]
        | exists "get_report_instance"; split; [simpl; tauto | reflexivity]
        | exists "list_report_instances"; split; [simpl; tauto | reflexivity]
        | exists "delete_report_instance"; split; [simpl; tauto | reflexivity]
        | exists "run_report_with_filters"; split; [simpl; tauto | reflexivity]
        | exists "create_report"; split; [simpl; tauto | reflexivity]
        | exists "update_report"; split; [simpl; tauto | reflexivity]
        | exists "delete_report"; split; [simpl; tauto | reflexivity]
        | exists "list_dashboards"; split; [simpl; tauto | reflexivity]
        | exists "get_dashboard"; split; [simpl; tauto | reflexivity]
        | exists "refresh_dashboard"; split; [simpl; tauto | reflexivity]
        | exists "clone_dashboard"; split; [simpl; tauto | reflexivity]
        | exists "delete_dashboard"; split; [simpl; tauto | reflexivity]
        | exists "get_dashboard_component"; split; [simpl; tauto | reflexivity] ].

(** The tool whose id the dispatcher returns for the operation of the
    goal. *)
Ltac pick_tool :=
  first [ exists Reports.salesforceListReportsTool;
          split; [unfold allTools; simpl; tauto | reflexivity]
        | exists Reports.salesforceGetReportMetadataTool;
          split; [unfold allTools; simpl; tauto | reflexivity]
        | exists Reports.salesforceRunReportTool;
          split; [unfold allTools; simpl; tauto | reflexivity]
        | exists Reports.salesforceRunReportAsyncTool;
          split; [unfold allTools; simpl; tauto | reflexivity]
        | exists Reports.salesforceGetReportInstanceTool;
          split; [unfold allTools; simpl; tauto | reflexivity]
        | exists Reports.salesforceListReportInstancesTool;
          split; [unfold allTools; simpl; tauto | reflexivity]
        | exists Reports.salesforceDeleteReportInstanceTool;
          split; [unfold allTools; simpl; tauto | reflexivity]
        | exists Reports.salesforceRunReportWithFiltersTool;
          split; [unfold allTools; simpl; tauto | reflexivity]
        | exists Reports.salesforceCreateReportTool;
          split; [unfold allTools; simpl; tauto | reflexivity]
        | exists Reports.salesforceUpdateReportTool;
          split; [unfold allTools; simpl; tauto | reflexivity]
        | exists Reports.salesforceDeleteReportTool;
          split; [unfold allTools; simpl; tauto | reflexivity]
        | exists Dashboards.salesforceListDashboardsTool;
          split; [unfold allTools; simpl; tauto | reflexivity]
        | exists Dashboards.salesforceGetDashboardTool;
          split; [unfold allTools; simpl; tauto | reflexivity]
        | exists Dashboards.salesforceRefreshDashboardTool;
          split; [unfold allTools; simpl; tauto | reflexivity]
        | exists Dashboards.salesforceCloneDashboardTool;
          split; [unfold allTools; simpl; tauto | reflexivity]
        | exists Dashboards.salesforceDeleteDashboardTool;
          split; [unfold allTools; simpl; tauto | reflexivity]
        | exists Dashboards.salesforceGetDashboardComponentTool;
          split; [unfold allTools; simpl; tauto | reflexivity] ].

(** X13.  The tools of reports.ts and dashboards.ts and the operations of
    the block for reports and dashboards correspond: the ids of the 17 tools
    are pairwise distinct, each is listed in [tools.access] and is what the
    dispatcher returns for one of these operations, and each of these
    operations is dispatched to one of the 17 tools. *)
Theorem analytics_tools_dispatched :
  NoDup (map id allTools) /\
  (forall t, In t allTools ->
      In (id t) access /\
      exists operation,
        In operation analyticsOperations /\ tool operation = Return (id t)) /\
  (forall operation, In operation analyticsOperations ->
      exists t, In t allTools /\ tool operation = Return (id t)).
Proof.
  split; [|split].
  - cbn. nodup_strings.
  - intros t Hin. unfold allTools in Hin.
    each_member Hin; unfold_method;
      (split; [unfold access; simpl; tauto | pick_operation]).
  - intros op Hin. unfold analyticsOperations in Hin. simpl in Hin.
    repeat (destruct Hin as [<- | Hin]; [pick_tool|]).
    contradiction.
Qed.

(** ** The sub-blocks and the tools' parameters *)

Lemma block_matches_toolb_sound (operation : string) :
  block_matches_toolb operation = true -> block_matches_tool operation.
Proof.
  unfold block_matches_toolb, block_matches_tool.
  rewrite !andb_true_iff. intros [[H1 H2] H3].
  apply inclb_sound in H1, H2. split.
  - intros x. split; [apply H1 | apply H2].
  - intros sb Hin (ops & Hc & Hop) Hreq.
    rewrite forallb_forall in H3. specialize (H3 sb Hin).
    rewrite Hc, Hreq in H3.
    assert (Hex : existsb (String.eqb operation) ops = true).
    { apply existsb_exists. exists operation.
      split; [exact Hop | apply String.eqb_refl]. }
    rewrite Hex in H3. cbn [negb orb] in H3.
    apply existsb_exists in H3 as (ps & Hps & Hp).
    apply andb_prop in Hp as [Hname Hr].
    apply String.eqb_eq in Hname. now exists ps.
Qed.

(** X14.  No condition of a sub-block names an operation that the dropdown
    does not have, the ids of the sub-blocks are pairwise distinct, and only
    [operation] and [credential] are without condition. *)
Theorem conditions_name_operations :
  (forall sb ops operation,
      In sb subBlocks -> sb_condition sb = Some ops -> In operation ops ->
      In operation operationIds) /\
  NoDup (map sb_id subBlocks) /\
  (forall sb, In sb subBlocks ->
      (sb_condition sb = None <->
       sb_id sb = "operation" \/ sb_id sb = "credential")).
Proof.
  split; [|split].
  - intros sb ops op Hin Hc Hop.
    assert (Hall : forallb (fun sb => match sb_condition sb with
                                      | Some ops => inclb ops operationIds
                                      | None => true
                                      end) subBlocks = true)
      by (vm_compute; reflexivity).
    rewrite forallb_forall in Hall. specialize (Hall sb Hin).
    rewrite Hc in Hall. now apply (inclb_sound _ _ Hall).
  - change (map sb_id subBlocks) with fieldIds.
    apply fieldIds_are_field_keys.
  - intros sb Hin. unfold subBlocks in Hin. simpl in Hin.
    repeat (destruct Hin as [<- | Hin];
            [cbn; split;
             [ intros H; first [ now left | now right | discriminate H ]
             | intros [H | H]; first [ reflexivity | discriminate H ] ]|]).
    contradiction.
Qed.

Lemma conditions_name_operations_witness :
  In "clone_dashboard" operationIds.
Proof.
  apply (proj1 conditions_name_operations
           {| sb_id := "folderId"; sb_required := false;
              sb_condition := Some ["clone_dashboard"] |}
           ["clone_dashboard"] "clone_dashboard").
  - unfold subBlocks. simpl. tauto.
  - reflexivity.
  - now left.
Defined.

(** X15.  For each operation of the reports and of the dashboards, the
    sub-blocks conditioned on the operation are exactly the parameters that
    its tool declares for the user, and every such sub-block that is marked
    required is a required parameter of the tool. *)
Theorem fields_match_tool_params (operation : string) :
  In operation analyticsOperations -> block_matches_tool operation.
Proof.
  intros Hin. apply block_matches_toolb_sound.
  assert (Hall : forallb block_matches_toolb analyticsOperations = true)
    by (vm_compute; reflexivity).
  rewrite forallb_forall in Hall. now apply Hall.
Qed.

Lemma fields_match_tool_params_witness :
  block_matches_tool "clone_dashboard".
Proof.
  apply (fields_match_tool_params "clone_dashboard").
  unfold analyticsOperations. simpl. tauto.
Defined.

(** ** The clean-up as a map *)

Lemma lookup_update (k k' : string) (v : value) (o : obj) :
  has_key k' o = true ->
  lookup k (update k' v o) = if k' =? k then Some v else lookup k o.
Proof.
  unfold has_key. induction o as [|[k1 v1] o IH]; simpl; [discriminate|].
  destruct (String.eqb_spec k1 k') as [-> | Hne]; simpl.
  - intros _. now destruct (k' =? k).
  - intros H. destruct (String.eqb_spec k1 k) as [-> | Hne'].
    + destruct (String.eqb_spec k' k); [congruence | reflexivity].
    + now apply IH.
Qed.

Lemma lookup_insert_index (k k' : string) (i : N) (v : value) (o : obj) :
  has_key k' o = false ->
  lookup k (insert_index i k' v o) = if k' =? k then Some v else lookup k o.
Proof.
  unfold has_key. induction o as [|[k1 v1] o IH]; simpl; [reflexivity|].
  destruct (String.eqb_spec k1 k') as [-> | Hne]; [discriminate|].
  intros H.
  destruct (array_index k1) as [j|]; [destruct (j <? i)%N|]; simpl;
    try reflexivity.
  destruct (String.eqb_spec k1 k) as [-> | Hne'].
  - destruct (String.eqb_spec k' k); [congruence | reflexivity].
  - now apply IH.
Qed.

Lemma lookup_snoc (k k' : string) (v : value) (o : obj) :
  has_key k' o = false ->
  lookup k (o ++ [(k', v)])%list = if k' =? k then Some v else lookup k o.
Proof.
  unfold has_key. induction o as [|[k1 v1] o IH]; simpl; [reflexivity|].
  destruct (String.eqb_spec k1 k') as [-> | Hne]; [discriminate|].
  intros H. destruct (String.eqb_spec k1 k) as [-> | Hne'].
  - destruct (String.eqb_spec k' k); [congruence | reflexivity].
  - now apply IH.
Qed.

(** Reading after writing. *)
Lemma lookup_obj_set (k k' : string) (v : value) (o : obj) :
  lookup k (obj_set o k' v) = if k' =? k then Some v else lookup k o.
Proof.
  unfold obj_set. destruct (has_key k' o) eqn:H.
  - now apply lookup_update.
  - destruct (array_index k');
      [now apply lookup_insert_index | now apply lookup_snoc].
Qed.

Lemma lookup_step (k : string) (acc : obj) (kv : string * value) :
  lookup k (step acc kv)
  = if (fst kv =? k) && is_set (snd kv) && negb (fst kv =? "__proto__")
    then Some (snd kv) else lookup k acc.
Proof.
  unfold step, obj_assign. destruct kv as [k' v]. cbn [fst snd].
  destruct (is_set v); [|now rewrite andb_false_r].
  destruct (k' =? "__proto__"); [now rewrite andb_false_r|].
  rewrite lookup_obj_set. now destruct (k' =? k).
Qed.

Lemma lookup_fold_step (k : string) (l acc : obj) :
  NoDup (map fst l) ->
  lookup k (fold_left step l acc)
  = match lookup k l with
    | Some v =>
        if is_set v && negb (k =? "__proto__") then Some v else lookup k acc
    | None => lookup k acc
    end.
Proof.
  revert acc. induction l as [|[k' v] l IH]; intros acc Hnd; [reflexivity|].
  inversion Hnd as [|? ? Hnotin Hnd']; subst.
  cbn [fold_left lookup]. rewrite (IH _ Hnd'), lookup_step. cbn [fst snd].
  destruct (String.eqb_spec k' k) as [-> | Hne].
  - apply lookup_None in Hnotin. rewrite Hnotin. cbn [andb].
    now destruct (is_set v && negb (k =? "__proto__")).
  - cbn [andb]. reflexivity.
Qed.

Lemma lookup_rest_of (k : string) (bag : obj) :
  lookup k (rest_of bag)
  = if (k =? "credential") || (k =? "operation") then None else lookup k bag.
Proof.
  unfold rest_of.
  set (f := fun s : string => (s =? "credential") || (s =? "operation")).
  change (lookup k (filter (fun kv => negb (f (fst kv))) bag)
          = if f k then None else lookup k bag).
  induction bag as [|[k' v] bag IH]; cbn [filter lookup fst].
  - now destruct (f k).
  - destruct (String.eqb_spec k' k) as [-> | Hne].
    + destruct (f k) eqn:E; cbn [negb lookup].
      * exact IH.
      * now rewrite String.eqb_refl.
    + destruct (f k'); cbn [negb lookup]; [exact IH|].
      destruct (String.eqb_spec k' k); [contradiction | exact IH].
Qed.

(** X16.  The clean-up as a map, for every object, array indices and
    [__proto__] among its keys included: [credential] is always there with
    the value the bag has for it, [operation] and [__proto__] never are, and
    any other key is there exactly when the bag has a value for it that is
    not [undefined], [null] or the empty string, with that value. *)
Theorem params_as_map (bag : obj) (k : string) :
  NoDup (map fst bag) ->
  lookup k (params bag) = cleaned bag k.
Proof.
  intros Hnd. rewrite params_fold, lookup_fold_step
    by now apply NoDup_map_filter.
  rewrite lookup_rest_of. unfold cleaned. cbn [lookup].
  destruct (String.eqb_spec k "credential") as [-> | Hc].
  - reflexivity.
  - cbn [orb].
    destruct (String.eqb_spec "credential" k) as [E | _]; [congruence|].
    destruct (String.eqb_spec k "operation") as [-> | Ho]; [reflexivity|].
    cbn [orb].
    destruct (lookup k bag) as [v|]; [|now destruct (k =? "__proto__")].
    destruct (k =? "__proto__"); [now rewrite andb_false_r|].
    now rewrite andb_true_r.
Qed.

Lemma params_as_map_witness :
  lookup "7" (params [("7", VStr "x"); ("credential", VNull);
                      ("operation", VStr "run_report"); ("limit", VStr "")])
  = Some (VStr "x").
Proof.
  apply (params_as_map [("7", VStr "x"); ("credential", VNull);
                        ("operation", VStr "run_report");
                        ("limit", VStr "")] "7").
  repeat constructor; simpl; intuition discriminate.
Defined.

(** X17.  Whatever the bag, a value of the result under a key other than
    [credential] is never [undefined], [null] or the empty string, and
    [credential] is a key of the result. *)
Theorem params_values_set (bag : obj) :
  In "credential" (map fst (params bag)) /\
  forall k v, In (k, v) (params bag) -> k <> "credential" -> is_set v = true.
Proof.
  destruct (params_Clean bag) as (idx & strs & -> & _ & _ & _ & Hi & Hs).
  split.
  - rewrite map_app, in_app_iff. right. now left.
  - intros k v Hin Hk. unfold all_set in Hi, Hs.
    rewrite forallb_forall in Hi, Hs.
    apply in_app_iff in Hin as [Hin | [Hin | Hin]].
    + exact (Hi _ Hin).
    + congruence.
    + exact (Hs _ Hin).
Qed.
